(** * Automated EDA tool: the statistical analysis engine

    A shallow embedding of [src/eda_engine.py] (class [EDAEngine]) and of the
    pandas / numpy operations its five analyses call, followed by the
    properties of the engine.

    Numbers.  A float64 cell is modelled as either [NaN] or an exact rational:
    rounding and the infinities are left out, the NaN rules (arithmetic
    propagates it, every ordered comparison with it is false) are kept, since
    the engine's treatment of missing values rests on them. *)

From Stdlib Require Import QArith Qround Qminmax Qreals Reals Psatz Permutation Sorted.
From stdpp Require Import gmap strings list fin_maps.

(** ** float64 *)

Module f64.

Inductive float64 : Type :=
| NaN
| Num (q : Q).

Definition Qltb (x y : Q) : bool := negb (Qle_bool y x).

Definition sub (a b : float64) : float64 :=
  match a, b with Num x, Num y => Num (x - y) | _, _ => NaN end.
Definition add (a b : float64) : float64 :=
  match a, b with Num x, Num y => Num (x + y) | _, _ => NaN end.
Definition mul (a b : float64) : float64 :=
  match a, b with Num x, Num y => Num (x * y) | _, _ => NaN end.

(** [a < b] and [a > b]: false as soon as one side is NaN. *)
Definition lt (a b : float64) : bool :=
  match a, b with Num x, Num y => Qltb x y | _, _ => false end.
Definition gt (a b : float64) : bool := lt b a.

(** [a == b] on floats: NaN is not equal to itself. *)
Definition eqb (a b : float64) : bool :=
  match a, b with Num x, Num y => Qeq_bool x y | _, _ => false end.

Definition isnan (a : float64) : bool :=
  match a with NaN => true | Num _ => false end.

(** The same float value: both NaN, or rationals that are equal. *)
Definition same (a b : float64) : Prop :=
  match a, b with
  | NaN, NaN => True
  | Num x, Num y => (x == y)%Q
  | _, _ => False
  end.

End f64.
Import f64.

(** ** numpy *)

Module np.

Fixpoint insert_sorted (x : Q) (l : list Q) : list Q :=
  match l with
  | [] => [x]
  | y :: l' => if Qle_bool x y then x :: l else y :: insert_sorted x l'
  end.

(** [np.sort]: ascending order. *)
Definition sort (arr : list Q) : list Q := foldr insert_sorted [] arr.

(** [numpy.lib._function_base_impl._lerp]: [a + (b - a) * t], replaced by
    [b - (b - a) * (1 - t)] where [t >= 0.5]. *)
Definition lerp (a b t : Q) : Q :=
  if Qle_bool (1 # 2) t then (b - (b - a) * (1 - t))%Q else (a + (b - a) * t)%Q.

(** [np.percentile(arr, 100 * q, method="linear")] on an array without NaN:
    the virtual index is [(n - 1) * q]; the two neighbours are its floor and
    the index after it, both clipped to the array. *)
Definition quantile (arr : list Q) (q : Q) : Q :=
  let sorted := sort arr in
  let n := Z.of_nat (length arr) in
  let virtual_index := (inject_Z (n - 1) * q)%Q in
  let previous_index := Qfloor virtual_index in
  let gamma := (virtual_index - inject_Z previous_index)%Q in
  let '(lo, hi) :=
    if Qle_bool (inject_Z (n - 1)) virtual_index then ((n - 1)%Z, (n - 1)%Z)
    else if Qltb virtual_index 0 then (0%Z, 0%Z)
    else (previous_index, (previous_index + 1)%Z) in
  lerp (nth (Z.to_nat lo) sorted 0%Q) (nth (Z.to_nat hi) sorted 0%Q) gamma.

End np.

(** ** pandas *)

Module pd.

(** A column.  [read_csv] infers int64 or float64 (numeric, NaN marks a
    missing cell), bool, or object (text; a missing cell is [None]). *)
Inductive Series : Type :=
| NumSeries (values : list float64)
| ObjSeries (values : list (option string))
| BoolSeries (values : list bool).

(** A table: named columns in order.  [read_csv] makes the names unique. *)
Definition DataFrame : Type := list (string * Series).

Definition columns {A} (df : list (string * A)) : list string := df.*1.

(** [df[col]]: the column with that label. *)
Fixpoint getitem {A} (df : list (string * A)) (col : string) : option A :=
  match df with
  | [] => None
  | (name, s) :: rest => if String.eqb name col then Some s else getitem rest col
  end.

(** [len(df)] *)
Definition series_len (s : Series) : nat :=
  match s with
  | NumSeries vs => length vs
  | ObjSeries vs => length vs
  | BoolSeries vs => length vs
  end.

Definition nrows (df : DataFrame) : nat :=
  match df with [] => 0 | (_, s) :: _ => series_len s end.

(** [df.select_dtypes(include=[np.number])] *)
Fixpoint select_number (df : DataFrame) : list (string * list float64) :=
  match df with
  | [] => []
  | (name, NumSeries vs) :: rest => (name, vs) :: select_number rest
  | _ :: rest => select_number rest
  end.

(** [df.select_dtypes(include=['object', 'category'])] *)
Fixpoint select_object (df : DataFrame) : list (string * list (option string)) :=
  match df with
  | [] => []
  | (name, ObjSeries vs) :: rest => (name, vs) :: select_object rest
  | _ :: rest => select_object rest
  end.

(** The present values of a numeric column. *)
Fixpoint dropna (values : list float64) : list Q :=
  match values with
  | [] => []
  | NaN :: rest => dropna rest
  | Num q :: rest => q :: dropna rest
  end.

(** [Series.quantile(q)] (interpolation [linear]): NaN cells are dropped;
    NaN when nothing is left. *)
Definition quantile (values : list float64) (q : Q) : float64 :=
  match dropna values with
  | [] => NaN
  | arr => Num (np.quantile arr q)
  end.

(** [(mask).sum()] of a boolean column: the number of True cells. *)
Definition sum_bool (mask : list bool) : nat :=
  foldr (fun (b : bool) acc => if b then S acc else acc) 0%nat mask.

(** [s < x], [s > x], [m1 | m2]: cell by cell. *)
Definition series_lt (s : list float64) (x : float64) : list bool :=
  map (fun v => lt v x) s.
Definition series_gt (s : list float64) (x : float64) : list bool :=
  map (fun v => gt v x) s.
Definition series_or (m1 m2 : list bool) : list bool :=
  zip_with orb m1 m2.

(** [Series.to_dict()] / [dict(zip(index, values))]: a later label wins. *)
Definition to_dict {V} (items : list (string * V)) : gmap string V :=
  foldl (fun m kv => <[kv.1 := kv.2]> m) (∅ : gmap string V) items.

(** [s.isnull()] *)
Definition isnull (s : Series) : list bool :=
  match s with
  | NumSeries vs => map isnan vs
  | ObjSeries vs => map (fun o : option string => match o with Some _ => false | None => true end) vs
  | BoolSeries vs => map (fun _ => false) vs
  end.

(** [df.isnull().sum()]: per column, the number of missing cells. *)
Definition isnull_sum (df : DataFrame) : list (string * nat) :=
  map (fun cs => (cs.1, sum_bool (isnull cs.2))) df.

(** [s[s > 0]] *)
Definition positive (s : list (string * nat)) : list (string * nat) :=
  List.filter (fun cn => (0 <? cn.2)%nat) s.

(** The present cells of a text column, in row order. *)
Definition dropna_obj {A} (values : list (option A)) : list A :=
  omap (fun o => o) values.

Section hashable.
Context {A : Type} `{EqDecision A}.

(** One step of the hash-table pass of [value_counts]: a value seen
    before has its count raised, a new one is appended with count 1. *)
Fixpoint bump (v : A) (table : list (A * nat)) : list (A * nat) :=
  match table with
  | [] => [(v, 1%nat)]
  | (k, n) :: rest =>
      if decide (k = v) then (k, S n) :: rest else (k, n) :: bump v rest
  end.

(** Keys in order of first appearance, each with its number of
    occurrences. *)
Definition count_table (values : list A) : list (A * nat) :=
  foldl (fun table v => bump v table) [] values.

(** Insertion into a list ordered by descending count, after the entries
    with a larger count and before those with the same count. *)
Fixpoint insert_desc (x : A * nat) (l : list (A * nat)) : list (A * nat) :=
  match l with
  | [] => [x]
  | y :: l' => if (x.2 <? y.2)%nat then y :: insert_desc x l' else x :: l
  end.

(** [sort_values(ascending=False)], keeping the order of ties. *)
Definition sort_values_desc (l : list (A * nat)) : list (A * nat) :=
  foldr insert_desc [] l.

(** [value_counts()] of the present values: descending by count. *)
Definition value_counts (values : list A) : list (A * nat) :=
  sort_values_desc (count_table values).

(** [nunique()] of the present values. *)
Definition nunique (values : list A) : nat :=
  length (count_table values).
End hashable.

(** [s.head(n)] *)
Definition head {A} (n : nat) (s : list A) : list A := take n s.

(** Sums and moments of the present values of a numeric column. *)
Definition Qsum (l : list Q) : Q := foldr Qplus 0%Q l.

Definition Qmean (l : list Q) : Q := (Qsum l / inject_Z (Z.of_nat (length l)))%Q.

(** Sum of squared deviations from the mean. *)
Definition ssqdm (l : list Q) : Q :=
  Qsum (map (fun x => (x - Qmean l) * (x - Qmean l))%Q l).

Definition count (values : list float64) : nat := length (dropna values).

Definition mean (values : list float64) : float64 :=
  match dropna values with
  | [] => NaN
  | arr => Num (Qmean arr)
  end.

(** [Series.var()], [ddof=1]: undefined below two present values. *)
Definition var (values : list float64) : float64 :=
  match dropna values with
  | [] | [_] => NaN
  | arr => Num (ssqdm arr / inject_Z (Z.of_nat (length arr) - 1))%Q
  end.

(** [Series.std()]: the square root of [var]; [None] is NaN. *)
Definition std (values : list float64) : option R :=
  match var values with
  | NaN => None
  | Num v => Some (sqrt (Q2R v))
  end.

Definition min (values : list float64) : float64 :=
  match dropna values with
  | [] => NaN
  | x :: arr => Num (foldr Qmin x arr)
  end.

Definition max (values : list float64) : float64 :=
  match dropna values with
  | [] => NaN
  | x :: arr => Num (foldr Qmax x arr)
  end.

(** Rows in which both columns have a value (pairwise complete). *)
Fixpoint complete_pairs (xs ys : list float64) : list (Q * Q) :=
  match xs, ys with
  | Num x :: xs', Num y :: ys' => (x, y) :: complete_pairs xs' ys'
  | _ :: xs', _ :: ys' => complete_pairs xs' ys'
  | _, _ => []
  end.

(** One entry of [DataFrame.corr()] (Pearson, [min_periods=1]): the
    co-moment over the square root of the product of the two sums of
    squared deviations, all over the pairwise complete rows; NaN ([None])
    without such a row or when the divisor is zero.  pandas accumulates
    these sums in one pass; in exact arithmetic they are the sums below. *)
Definition pearson (xs ys : list float64) : option R :=
  let pairs := complete_pairs xs ys in
  let vx := pairs.*1 in
  let vy := pairs.*2 in
  match pairs with
  | [] => None
  | _ =>
      let ssqdm_x := ssqdm vx in
      let ssqdm_y := ssqdm vy in
      let covxy :=
        Qsum (map (fun p => (p.1 - Qmean vx) * (p.2 - Qmean vy))%Q pairs) in
      if Qeq_bool (ssqdm_x * ssqdm_y) 0 then None
      else Some (Q2R covxy / sqrt (Q2R (ssqdm_x * ssqdm_y)))%R
  end.

(** [nums.corr()], then [.to_dict()]: column label, then row label. *)
Definition corr (nums : list (string * list float64))
    : list (string * list (string * option R)) :=
  map (fun a => (a.1, map (fun b => (b.1, pearson a.2 b.2)) nums)) nums.

(** [nums.empty]: no column or no row. *)
Definition empty {A} (nums : list (string * list A)) : bool :=
  match nums with
  | [] => true
  | (_, vs) :: _ => (length vs =? 0)%nat
  end.

(** A cell of a column that is not numeric. *)
Inductive scalar : Type :=
| Str (s : string)
| Bool (b : bool).

#[global] Instance scalar_eq_dec : EqDecision scalar.
Proof. solve_decision. Defined.

(** One column of [describe()]: the eight statistics of a numeric column,
    or count / unique / top / freq of any other column. *)
Record numeric_stats : Type := {
  ns_count : nat;
  ns_mean : float64;
  ns_std : option R;
  ns_min : float64;
  ns_25 : float64;
  ns_50 : float64;
  ns_75 : float64;
  ns_max : float64
}.

Record categorical_stats : Type := {
  cs_count : nat;
  cs_unique : nat;
  cs_top : option scalar;
  cs_freq : option nat
}.

Inductive description : Type :=
| Numeric (d : numeric_stats)
| Categorical (d : categorical_stats).

Definition describe_numeric_1d (values : list float64) : numeric_stats :=
  {| ns_count := count values;
     ns_mean := mean values;
     ns_std := std values;
     ns_min := min values;
     ns_25 := quantile values (1 # 4);
     ns_50 := quantile values (1 # 2);
     ns_75 := quantile values (3 # 4);
     ns_max := max values |}.

Definition describe_categorical_1d (present : list scalar) : categorical_stats :=
  let objcounts := value_counts present in
  {| cs_count := length present;
     cs_unique := length objcounts;
     cs_top := (fun kv => kv.1) <$> List.head objcounts;
     cs_freq := (fun kv => kv.2) <$> List.head objcounts |}.

Definition describe_1d (s : Series) : description :=
  match s with
  | NumSeries vs => Numeric (describe_numeric_1d vs)
  | ObjSeries vs => Categorical (describe_categorical_1d (Str <$> dropna_obj vs))
  | BoolSeries vs => Categorical (describe_categorical_1d (Bool <$> vs))
  end.

Definition is_number (s : Series) : bool :=
  match s with NumSeries _ => true | _ => false end.

(** Python exceptions raised by the calls modelled here. *)
Inductive exn : Type :=
| ValueError
| FileNotFoundError
| ParserError.

(** [df.describe()] with its default arguments: a frame without columns is
    refused; the numeric columns are described, and when there is none,
    every column is. *)
Definition describe (df : DataFrame) : exn + list (string * description) :=
  match df with
  | [] => inl ValueError
  | _ =>
      let data :=
        match List.filter (fun cs => is_number cs.2) df with
        | [] => df
        | selected => selected
        end in
      inr (map (fun cs => (cs.1, describe_1d cs.2)) data)
  end.

(** What [read_csv] guarantees of the table it builds: distinct column
    labels, and columns of one length. *)
Definition well_formed (df : DataFrame) : Prop :=
  NoDup (columns df) /\
  forall c s, (c, s) ∈ df -> series_len s = nrows df.

(** [DataFrame.to_dict()]: column label, then row label. *)
Definition frame_to_dict {V} (frame : list (string * list (string * V)))
    : gmap string (gmap string V) :=
  to_dict (map (fun cs => (cs.1, to_dict cs.2)) frame).

(** What a caller may pass where a path is expected. *)
Inductive pyobject : Type :=
| PyStr (path : string)
| PyDataFrame (table : DataFrame).

Section read_csv.
(** The files: the table the parser builds from the file at a path, or
    the exception of an absent or malformed one. *)
Variable parse_file : string -> exn + DataFrame.

(** [pd.read_csv(filepath_or_buffer)]: anything that is not a path or a
    buffer is refused ("Invalid file path or buffer object type"). *)
Definition read_csv (filepath_or_buffer : pyobject) : exn + DataFrame :=
  match filepath_or_buffer with
  | PyStr path => parse_file path
  | PyDataFrame _ => inl ValueError
  end.
End read_csv.

(** [KeyError]: a label that is not a column. *)
Inductive key_error : Type :=
| KeyError (label : string).

(** The value of a cell as a category: numbers by their reduced fraction. *)
Inductive category : Type :=
| CatNum (q : Q)
| CatStr (s : string)
| CatBool (b : bool).

#[global] Instance Q_eq_dec : EqDecision Q.
Proof. solve_decision. Defined.

#[global] Instance category_eq_dec : EqDecision category.
Proof. solve_decision. Defined.

(** The cells of a column of any dtype, [None] where missing. *)
Definition categories (s : Series) : list (option category) :=
  match s with
  | NumSeries vs =>
      map (fun v => match v with NaN => None | Num q => Some (CatNum (Qred q)) end) vs
  | ObjSeries vs => map (fun o : option string => CatStr <$> o) vs
  | BoolSeries vs => map (fun b => Some (CatBool b)) vs
  end.

(** [s.isin(values)]: a missing cell is in no list of categories. *)
Definition isin (s : Series) (values : list category) : list bool :=
  map (fun c : option category =>
         match c with
         | Some k => bool_decide (k ∈ values)
         | None => false
         end) (categories s).

(** [s.notnull()] *)
Definition notnull (s : Series) : list bool := map negb (isnull s).

(** The cells at which a boolean mask is True. *)
Fixpoint mask_list {A} (mask : list bool) (cells : list A) : list A :=
  match mask, cells with
  | b :: mask', x :: cells' =>
      if b then x :: mask_list mask' cells' else mask_list mask' cells'
  | _, _ => []
  end.

Definition mask_series (mask : list bool) (s : Series) : Series :=
  match s with
  | NumSeries vs => NumSeries (mask_list mask vs)
  | ObjSeries vs => ObjSeries (mask_list mask vs)
  | BoolSeries vs => BoolSeries (mask_list mask vs)
  end.

(** [df[mask]]: the rows at which the mask is True. *)
Definition mask_rows (mask : list bool) (df : DataFrame) : DataFrame :=
  map (fun cs => (cs.1, mask_series mask cs.2)) df.

(** [df.dropna(subset=[label])]: the rows with a value in that column. *)
Definition dropna_subset (label : string) (df : DataFrame) : key_error + DataFrame :=
  match getitem df label with
  | None => inl (KeyError label)
  | Some s => inr (mask_rows (notnull s) df)
  end.

(** [df[labels]]: the listed columns, in the order listed; the first label
    that is not a column is reported. *)
Fixpoint take_columns (labels : list string) (df : DataFrame) : key_error + DataFrame :=
  match labels with
  | [] => inr []
  | label :: rest =>
      match getitem df label with
      | None => inl (KeyError label)
      | Some s =>
          match take_columns rest df with
          | inl e => inl e
          | inr out => inr ((label, s) :: out)
          end
      end
  end.

End pd.

(** ** EDAEngine *)

Module EDAEngine.

Record t : Type := { df : pd.DataFrame }.

(** [__init__(self, data_path)]: [self.df = pd.read_csv(data_path)]. *)
Definition __init__ (parse_file : string -> pd.exn + pd.DataFrame)
    (data_path : pd.pyobject) : pd.exn + t :=
  match pd.read_csv parse_file data_path with
  | inl e => inl e
  | inr table => inr {| df := table |}
  end.

Definition get_basic_stats (self : t) : pd.exn + gmap string pd.description :=
  match pd.describe (df self) with
  | inl e => inl e
  | inr desc => inr (pd.to_dict desc)
  end.

Definition analyze_missing_values (self : t) : gmap string nat :=
  let missing := pd.isnull_sum (df self) in
  pd.to_dict (pd.positive missing).

(** The value stored per categorical column; [top_freq] is a Python dict
    read in insertion order. *)
Record categorical_summary : Type := {
  unique_count : nat;
  top_freq : list (string * nat)
}.

(** One round of the loop of [get_categorical_summary] over [cat_cols]. *)
Definition categorical_step (self : t)
    (summary : gmap string categorical_summary) (col : string)
    : gmap string categorical_summary :=
  match pd.getitem (df self) col with
  | Some (pd.ObjSeries values) =>
      <[col := {| unique_count := pd.nunique (pd.dropna_obj values);
                  top_freq := pd.head 3 (pd.value_counts (pd.dropna_obj values)) |}]>
        summary
  | _ => summary (* not reached: [col] ranges over the text columns *)
  end.

Definition get_categorical_summary (self : t) : gmap string categorical_summary :=
  let cat_cols := pd.columns (pd.select_object (df self)) in
  foldl (categorical_step self) (∅ : gmap string categorical_summary) cat_cols.

Definition get_correlations (self : t) : gmap string (gmap string (option R)) :=
  let nums := pd.select_number (df self) in
  if pd.empty nums then ∅
  else pd.frame_to_dict (pd.corr nums).

(** One round of the loop of [detect_outliers_iqr] over [nums.columns]. *)
Definition outliers_step (nums : list (string * list float64))
    (outliers : gmap string nat) (col : string) : gmap string nat :=
  match pd.getitem nums col with
  | None => outliers (* not reached: [col] ranges over [nums.columns] *)
  | Some s =>
      let Q1 := pd.quantile s (1 # 4) in
      let Q3 := pd.quantile s (3 # 4) in
      let IQR := sub Q3 Q1 in
      let lower_bound := sub Q1 (mul (Num (3 # 2)) IQR) in
      let upper_bound := add Q3 (mul (Num (3 # 2)) IQR) in
      let count :=
        pd.sum_bool (pd.series_or (pd.series_lt s lower_bound)
                                  (pd.series_gt s upper_bound)) in
      if (0 <? count)%nat then <[col := count]> outliers else outliers
  end.

Definition detect_outliers_iqr (self : t) : gmap string nat :=
  let nums := pd.select_number (df self) in
  foldl (outliers_step nums) (∅ : gmap string nat) (pd.columns nums).

(** The five analyses, and a call of one of them on an engine: the value
    returned and the engine afterwards.  No method assigns to [self.df]. *)
Inductive analysis : Type :=
| GetBasicStats
| AnalyzeMissingValues
| GetCategoricalSummary
| GetCorrelations
| DetectOutliersIqr.

Inductive result : Type :=
| BasicStats (r : pd.exn + gmap string pd.description)
| MissingValues (r : gmap string nat)
| CategoricalSummary (r : gmap string categorical_summary)
| Correlations (r : gmap string (gmap string (option R)))
| Outliers (r : gmap string nat).

Definition call (a : analysis) (self : t) : result * t :=
  match a with
  | GetBasicStats => (BasicStats (get_basic_stats self), self)
  | AnalyzeMissingValues => (MissingValues (analyze_missing_values self), self)
  | GetCategoricalSummary => (CategoricalSummary (get_categorical_summary self), self)
  | GetCorrelations => (Correlations (get_correlations self), self)
  | DetectOutliersIqr => (Outliers (detect_outliers_iqr self), self)
  end.


(** Attribute lookup [engine.<name>] for a method call: the methods the
    class defines. *)
Definition method (name : string) : option analysis :=
  if String.eqb name "get_basic_stats" then Some GetBasicStats
  else if String.eqb name "analyze_missing_values" then Some AnalyzeMissingValues
  else if String.eqb name "get_categorical_summary" then Some GetCategoricalSummary
  else if String.eqb name "get_correlations" then Some GetCorrelations
  else if String.eqb name "detect_outliers_iqr" then Some DetectOutliersIqr
  else None.

End EDAEngine.

(** ** ReportGenerator (its constructor) *)

Module ReportGenerator.

Record t : Type := {
  df : pd.DataFrame;
  title : string;
  engine : EDAEngine.t
}.

(** [__init__(self, df, title)]: [self.engine = EDAEngine(df)]. *)
Definition __init__ (parse_file : string -> pd.exn + pd.DataFrame)
    (table : pd.DataFrame) (title : string) : pd.exn + t :=
  match EDAEngine.__init__ parse_file (pd.PyDataFrame table) with
  | inl e => inl e
  | inr eng => inr {| df := table; title := title; engine := eng |}
  end.

(** What a call on the engine can raise: an exception of the method, or
    [AttributeError] when the class has no such method. *)
Inductive raised : Type :=
| Raised (e : pd.exn)
| AttributeError (attr : string).

(** [self.engine.<name>()] *)
Definition call_method (engine : EDAEngine.t) (name : string)
    : raised + EDAEngine.result :=
  match EDAEngine.method name with
  | None => inl (AttributeError name)
  | Some a =>
      match (EDAEngine.call a engine).1 with
      | EDAEngine.BasicStats (inl e) => inl (Raised e)
      | r => inr r
      end
  end.

Section generate_report.
(** Lines 34 to 126 of [generate_report]: the plots and the assembly of the
    HTML page from the four results gathered before. *)
Variable render : t -> EDAEngine.result -> EDAEngine.result ->
                  EDAEngine.result -> EDAEngine.result -> raised + string.

Definition generate_report (self : t) : raised + string :=
  match call_method (engine self) "get_basic_stats" with
  | inl e => inl e
  | inr stats =>
  match call_method (engine self) "get_missing_values" with
  | inl e => inl e
  | inr missing =>
  match call_method (engine self) "get_categorical_summary" with
  | inl e => inl e
  | inr categorical =>
  match call_method (engine self) "get_outliers" with
  | inl e => inl e
  | inr outliers => render self stats missing categorical outliers
  end end end end.

(** [save_report(self, filepath)]: the files afterwards, the page being
    written once it has been generated. *)
Definition save_report (self : t) (filepath : string) (files : gmap string string)
    : raised + gmap string string :=
  match generate_report self with
  | inl e => inl e
  | inr report_html => inr (<[filepath := report_html]> files)
  end.
End generate_report.

End ReportGenerator.

(** ** main.py *)

Module Main.

(** The report dictionary. *)
Record report : Type := {
  dataset : string;
  shape : nat * nat;
  missing_values : gmap string nat;
  numerical_stats : gmap string pd.description;
  categorical_summary : gmap string EDAEngine.categorical_summary;
  outliers_detected : gmap string nat;
  correlations : gmap string (gmap string (option R))
}.

(** The two handlers of [main] tell [FileNotFoundError] from every other
    exception. *)
Inductive failure : Type :=
| NotFound
| OtherException.

Definition classify (e : pd.exn) : failure :=
  match e with
  | pd.FileNotFoundError => NotFound
  | _ => OtherException
  end.

(** The lines [main] prints. *)
Inductive line : Type :=
| Analyzing (file : string)
| Saved (output : string)
| QuickSummary
| RowsColumns (rows cols : nat)
| MissingValues (total : nat)
| OutliersDetected (total : nat)
| ErrorFileNotFound (file : string)
| ErrorOther.

(** [sum(d.values())] *)
Definition sum_values (d : gmap string nat) : nat :=
  map_fold (fun _ v acc => (v + acc)%nat) 0%nat d.

(** [df.shape] *)
Definition df_shape (df : pd.DataFrame) : nat * nat := (pd.nrows df, length df).

Section main.
Variable parse_file : string -> pd.exn + pd.DataFrame.
(** [with open(output, 'w') as f: json.dump(report, f, ...)]: the failure
    of opening the file or of encoding the report, if any. *)
Variable write_json : string -> report -> option failure.

(** The [except] clauses: the message printed for a failure in the [try]
    block. *)
Definition handler (file : string) (f : failure) : line :=
  match f with
  | NotFound => ErrorFileNotFound file
  | OtherException => ErrorOther
  end.

(** [main()] with [--file file --output output]: the lines printed. *)
Definition main (file output : string) : list line :=
  Analyzing file ::
  match EDAEngine.__init__ parse_file (pd.PyStr file) with
  | inl e => [handler file (classify e)]
  | inr engine =>
      let missing := EDAEngine.analyze_missing_values engine in
      match EDAEngine.get_basic_stats engine with
      | inl e => [handler file (classify e)]
      | inr stats =>
          let r := {| dataset := file;
                      shape := df_shape (EDAEngine.df engine);
                      missing_values := missing;
                      numerical_stats := stats;
                      categorical_summary := EDAEngine.get_categorical_summary engine;
                      outliers_detected := EDAEngine.detect_outliers_iqr engine;
                      correlations := EDAEngine.get_correlations engine |} in
          match write_json output r with
          | Some f => [handler file f]
          | None =>
              [Saved output; QuickSummary;
               RowsColumns (shape r).1 (shape r).2;
               MissingValues (sum_values (missing_values r));
               OutliersDetected (sum_values (outliers_detected r))]
          end
      end
  end.
End main.

End Main.

(** ** Visualizer

    A figure is represented by what is drawn on it: the data and the
    arguments handed to the plotting library, axis by axis. *)

Module Visualizer.

Record t : Type := { df : pd.DataFrame }.

(** [sns.histplot(self.df[col], kde=True, ax=ax)] with its title, and
    [sns.countplot(y=col, data=data, order=top_cats, ax=ax)] with its
    title. *)
Inductive axes : Type :=
| Histplot (data : pd.Series) (title : string)
| Countplot (y : string) (data : pd.DataFrame) (order : list pd.category)
            (title : string).

Definition figure : Type := list axes.

(** The loop of [plot_histograms] over [zip(axes, columns)]. *)
Fixpoint histplots (self : t) (columns : list string) : pd.key_error + figure :=
  match columns with
  | [] => inr []
  | col :: rest =>
      match pd.getitem (df self) col with
      | None => inl (pd.KeyError col)
      | Some s =>
          match histplots self rest with
          | inl e => inl e
          | inr fig => inr (Histplot s ("Distribution of " +:+ col) :: fig)
          end
      end
  end.

Definition plot_histograms (self : t) (columns : option (list string))
    : pd.key_error + option figure :=
  let columns :=
    match columns with
    | None => pd.columns (pd.select_number (df self))
    | Some cols => cols
    end in
  let num_cols := length columns in
  if (num_cols =? 0)%nat then inr None
  else match histplots self columns with
       | inl e => inl e
       | inr fig => inr (Some fig)
       end.

(** The matrix handed to [sns.heatmap]. *)
Definition plot_correlation_heatmap (self : t)
    : option (list (string * list (string * option R))) :=
  let corr := pd.corr (pd.select_number (df self)) in
  if pd.empty corr then None else Some corr.

(** The present cells of a column, as categories. *)
Definition present_categories (s : pd.Series) : list pd.category :=
  pd.dropna_obj (pd.categories s).

(** The loop of [plot_categorical_counts]: the 20 most frequent categories
    of the column, and the rows of the table whose cell is one of them. *)
Fixpoint countplots (self : t) (columns : list string) : pd.key_error + figure :=
  match columns with
  | [] => inr []
  | col :: rest =>
      match pd.getitem (df self) col with
      | None => inl (pd.KeyError col)
      | Some s =>
          let top_cats := (pd.head 20 (pd.value_counts (present_categories s))).*1 in
          let data := pd.mask_rows (pd.isin s top_cats) (df self) in
          match countplots self rest with
          | inl e => inl e
          | inr fig =>
              inr (Countplot col data top_cats ("Count of " +:+ col +:+ " (Top 20)") :: fig)
          end
      end
  end.

Definition plot_categorical_counts (self : t) (columns : option (list string))
    : pd.key_error + option figure :=
  let columns :=
    match columns with
    | None => pd.columns (pd.select_object (df self))
    | Some cols => cols
    end in
  let num_cols := length columns in
  if (num_cols =? 0)%nat then inr None
  else match countplots self columns with
       | inl e => inl e
       | inr fig => inr (Some fig)
       end.

(** Truth value of an optional string: [None] and the empty string are
    false. *)
Definition truthy (hue : option string) : bool :=
  match hue with
  | Some h => negb (String.eqb h "")
  | None => false
  end.

(** What is handed to [sns.pairplot]. *)
Record pairgrid : Type := {
  pg_data : pd.DataFrame;
  pg_hue : option string
}.

Definition plot_pairplot (self : t) (columns : option (list string))
    (hue : option string) : pd.key_error + option pairgrid :=
  let columns :=
    match columns with
    | None => pd.columns (pd.select_number (df self))
    | Some cols => cols
    end in
  let data :=
    match hue with
    | Some h =>
        if truthy hue && bool_decide (h ∈ pd.columns (df self))
        then pd.dropna_subset h (df self)
        else inr (df self)
    | None => inr (df self)
    end in
  match data with
  | inl e => inl e
  | inr data =>
      if (length columns <? 2)%nat then inr None
      else
        let columns := if (5 <? length columns)%nat then take 5 columns else columns in
        let hue_column :=
          match hue with
          | Some h => if truthy hue then [h] else []
          | None => []
          end in
        match pd.take_columns (columns ++ hue_column) data with
        | inl e => inl e
        | inr frame => inr (Some {| pg_data := frame; pg_hue := hue |})
        end
  end.

End Visualizer.

(** ** The table of the test suite *)

Definition sample_data : pd.DataFrame :=
  [ ("A"%string, pd.NumSeries [Num 1; Num 2; Num 3; Num 4; Num 5]);
    ("B"%string, pd.ObjSeries [Some "x"; Some "y"; Some "x"; Some "z"; Some "x"]%string);
    ("C"%string, pd.NumSeries [Num (11 # 10); Num (22 # 10); NaN; Num (44 # 10); Num (55 # 10)]);
    ("D"%string, pd.NumSeries [Num 10; Num 100; Num 10; Num 10; Num 10]) ].

Definition sample_engine : EDAEngine.t := {| EDAEngine.df := sample_data |}.


(** A table with the text column of the test table and nothing else. *)
Definition text_only_engine : EDAEngine.t :=
  {| EDAEngine.df :=
       [("B"%string, pd.ObjSeries [Some "x"; Some "y"; Some "x"; Some "z"; Some "x"]%string)] |}.

(** ** The specification's own wording of the quantities it names *)

Module Spec.



(** Section 4.6, step 4: the present values strictly below the lower bound
    or strictly above the upper bound. *)
Definition outlier_count (present : list Q) (lower upper : float64) : nat :=
  length (List.filter (fun x => lt (Num x) lower || gt (Num x) upper) present).

(** Section 4.3: the missing entries of a column. *)
Definition missing_count (s : pd.Series) : nat :=
  match s with
  | pd.NumSeries vs => length (List.filter isnan vs)
  | pd.ObjSeries vs => length (List.filter (fun o : option string => negb (bool_decide (is_Some o))) vs)
  | pd.BoolSeries _ => 0
  end.



Section ranking.
Context {A : Type} `{EqDecision A}.

(** The number of cells equal to [v]. *)
Definition occurrences (v : A) (cells : list A) : nat :=
  length (List.filter (fun x => bool_decide (x = v)) cells).

(** The row at which [v] is first met (the number of rows when it is not). *)
Fixpoint first_index (v : A) (cells : list A) : nat :=
  match cells with
  | [] => 0
  | x :: rest => if decide (x = v) then 0 else S (first_index v rest)
  end.

(** The first entry with key [v] of an association list. *)
Fixpoint assoc (v : A) (table : list (A * nat)) : option nat :=
  match table with
  | [] => None
  | (k, n) :: rest => if decide (k = v) then Some n else assoc v rest
  end.
End ranking.

(** Order by descending count, then by ascending rank [rk] of the key. *)
Definition by_count_then_rank {A} (rk : A -> nat) (a b : A * nat) : Prop :=
  (b.2 < a.2)%nat \/ (a.2 = b.2 /\ (rk a.1 < rk b.1)%nat).


End Spec.

(** The entry of a numeric column in the outlier result: its count when
    positive. *)
Definition outlier_entry (s : list float64) : option nat :=
  let Q1 := pd.quantile s (1 # 4) in
  let Q3 := pd.quantile s (3 # 4) in
  let IQR := sub Q3 Q1 in
  let lower_bound := sub Q1 (mul (Num (3 # 2)) IQR) in
  let upper_bound := add Q3 (mul (Num (3 # 2)) IQR) in
  let n := Spec.outlier_count (pd.dropna s) lower_bound upper_bound in
  if (0 <? n)%nat then Some n else None.

(** [result[A][B]] in a dictionary of dictionaries. *)
Definition lookup2 {V} (result : gmap string (gmap string V)) (A B : string)
    : option V :=
  match result !! A with
  | Some row => row !! B
  | None => None
  end.

(** The number of cells of a numeric column that the detector flags (the
    [count] of the loop, before [if count > 0]). *)
Definition flagged_count (s : list float64) : nat :=
  let Q1 := pd.quantile s (1 # 4) in
  let Q3 := pd.quantile s (3 # 4) in
  let IQR := sub Q3 Q1 in
  Spec.outlier_count (pd.dropna s)
    (sub Q1 (mul (Num (3 # 2)) IQR)) (add Q3 (mul (Num (3 # 2)) IQR)).

(** * Properties *)

(** ** The scenarios of the test suite *)

Example sample_outliers :
  EDAEngine.detect_outliers_iqr sample_engine = {[ "D"%string := 1%nat ]}.
Proof. vm_compute. reflexivity. Qed.

Example sample_missing :
  EDAEngine.analyze_missing_values sample_engine = {[ "C"%string := 1%nat ]}.
Proof. vm_compute. reflexivity. Qed.

Example sample_categorical :
  EDAEngine.get_categorical_summary sample_engine
  = {[ "B"%string := {| EDAEngine.unique_count := 3;
                        EDAEngine.top_freq := [("x", 3%nat); ("y", 1%nat); ("z", 1%nat)]%string |} ]}.
Proof. vm_compute. reflexivity. Qed.


(** ** Rationals, comparisons *)




Lemma lt_nan_l (x : float64) : lt NaN x = false.
Proof. reflexivity. Qed.

Lemma lt_nan_r (x : float64) : lt x NaN = false.
Proof. by destruct x. Qed.

(** ** Dictionaries built by a loop *)

Lemma foldl_ext_eq {A B} (f g : A -> B -> A) (a : A) (l : list B) :
  (forall x y, f x y = g x y) -> foldl f a l = foldl g a l.
Proof. intros H. revert a. induction l as [|b l IH]; intros a; simpl; [done|]. by rewrite H, IH. Qed.

Section loops.
Context {V : Type}.

(** A loop that stores [f col] under [col] when it is defined. *)
Lemma lookup_foldl_insert (f : string -> option V) (cols : list string)
    (m : gmap string V) (c : string) :
  foldl (fun acc col => match f col with Some v => <[col := v]> acc | None => acc end)
        m cols !! c
  = if decide (c ∈ cols) then match f c with Some v => Some v | None => m !! c end
    else m !! c.
Proof.
  revert m. induction cols as [|a cols IH]; intros m; cbn [foldl].
  - case_decide as H; [by apply elem_of_nil in H|done].
  - rewrite IH. destruct (decide (c = a)) as [->|Hne].
    + case_decide as H1; case_decide as H2;
        try (exfalso; apply H2; apply list_elem_of_here);
        destruct (f a) as [v|]; by rewrite ?lookup_insert_eq.
    + assert (Hm : (match f a with Some v => <[a := v]> m | None => m end) !! c = m !! c).
      { destruct (f a); [by rewrite lookup_insert_ne|done]. }
      rewrite Hm. case_decide as H1; case_decide as H2; try done.
      * exfalso. apply H2. by apply list_elem_of_further.
      * exfalso. apply elem_of_cons in H2 as [H2|H2]; done.
Qed.

Lemma lookup_foldl_pairs (items : list (string * V)) (m : gmap string V)
    (k : string) (v : V) :
  NoDup items.*1 ->
  foldl (fun acc kv => <[kv.1 := kv.2]> acc) m items !! k = Some v
  <-> ((k, v) ∈ items) \/ ((k ∉ items.*1) /\ (m !! k = Some v)).
Proof.
  revert m. induction items as [|[k' v'] items IH]; intros m Hnd; cbn [foldl].
  - split; [intros H; right; split; [apply not_elem_of_nil|done]|].
    intros [H|[_ H]]; [by apply elem_of_nil in H|done].
  - rewrite fmap_cons in Hnd. apply NoDup_cons in Hnd as [Hk' Hnd].
    rewrite IH by done. rewrite fmap_cons, not_elem_of_cons, elem_of_cons.
    cbn [fst snd] in *.
    destruct (decide (k = k')) as [->|Hne].
    + rewrite lookup_insert_eq. split.
      * intros [H|[_ H]]; [left; by right|]. injection H as ->. left. by left.
      * intros [[H|H]|[[H _] _]]; [|by left|done].
        injection H as ->. by right.
    + rewrite lookup_insert_ne by done. split.
      * intros [H|[H1 H2]]; [left; by right|]. by right.
      * intros [[H|H]|[[_ H1] H2]]; [congruence|by left|by right].
Qed.

(** With distinct labels, [to_dict] holds exactly the listed items. *)
Lemma lookup_to_dict (items : list (string * V)) (k : string) (v : V) :
  NoDup items.*1 ->
  pd.to_dict items !! k = Some v <-> (k, v) ∈ items.
Proof.
  intros Hnd. unfold pd.to_dict. rewrite lookup_foldl_pairs by done.
  rewrite lookup_empty. split; [intros [H|[_ H]]; done|by left].
Qed.
End loops.

(** ** Columns and their selection *)

Section frames.
Context {A : Type}.
Implicit Types (items : list (string * A)) (c : string).

Lemma getitem_Some items c s : pd.getitem items c = Some s -> (c, s) ∈ items.
Proof.
  induction items as [|[k v] items IH]; simpl; [done|].
  destruct (String.eqb_spec k c) as [->|Hne].
  - intros [= ->]. apply list_elem_of_here.
  - intros H. apply list_elem_of_further. auto.
Qed.

Lemma getitem_None items c : c ∉ items.*1 -> pd.getitem items c = None.
Proof.
  induction items as [|[k v] items IH]; simpl; [done|].
  rewrite ?fmap_cons, not_elem_of_cons. intros [Hne Hin]. simpl in Hne.
  destruct (String.eqb_spec k c); [congruence|auto].
Qed.

Lemma getitem_NoDup items c s :
  NoDup items.*1 -> (c, s) ∈ items -> pd.getitem items c = Some s.
Proof.
  induction items as [|[k v] items IH]; simpl; intros Hnd Hin.
  - by apply elem_of_nil in Hin.
  - rewrite ?fmap_cons in Hnd. apply NoDup_cons in Hnd as [Hk Hnd]. simpl in Hk.
    apply elem_of_cons in Hin as [[= <- <-]|Hin].
    + by rewrite String.eqb_refl.
    + destruct (String.eqb_spec k c) as [->|Hne]; [|auto].
      exfalso. apply Hk. apply list_elem_of_fmap. by exists (c, s).
Qed.
End frames.

Lemma elem_of_select_number (df : pd.DataFrame) (c : string) (vs : list float64) :
  (c, vs) ∈ pd.select_number df <-> (c, pd.NumSeries vs) ∈ df.
Proof.
  induction df as [|[k s] df IH]; simpl.
  - by rewrite !elem_of_nil.
  - destruct s; rewrite ?elem_of_cons, IH; try (split; [by right|]);
      try (by intros [[=]|H]).
    split; (intros [[= -> ->]|H]; [by left|by right]).
Qed.

Lemma elem_of_select_object (df : pd.DataFrame) (c : string) (vs : list (option string)) :
  (c, vs) ∈ pd.select_object df <-> (c, pd.ObjSeries vs) ∈ df.
Proof.
  induction df as [|[k s] df IH]; simpl.
  - by rewrite !elem_of_nil.
  - destruct s; rewrite ?elem_of_cons, IH; try (split; [by right|]);
      try (by intros [[=]|H]).
    split; (intros [[= -> ->]|H]; [by left|by right]).
Qed.

Lemma columns_select_number (df : pd.DataFrame) (c : string) :
  c ∈ pd.columns (pd.select_number df) -> c ∈ pd.columns df.
Proof.
  unfold pd.columns. rewrite !list_elem_of_fmap.
  intros [[k vs] [-> Hin]]. apply elem_of_select_number in Hin.
  by exists (k, pd.NumSeries vs).
Qed.

Lemma columns_select_object (df : pd.DataFrame) (c : string) :
  c ∈ pd.columns (pd.select_object df) -> c ∈ pd.columns df.
Proof.
  unfold pd.columns. rewrite !list_elem_of_fmap.
  intros [[k vs] [-> Hin]]. apply elem_of_select_object in Hin.
  by exists (k, pd.ObjSeries vs).
Qed.

Lemma NoDup_select_number (df : pd.DataFrame) :
  NoDup (pd.columns df) -> NoDup (pd.columns (pd.select_number df)).
Proof.
  induction df as [|[k s] df IH]; simpl; [done|].
  unfold pd.columns in *. rewrite ?fmap_cons. intros [Hk Hnd]%NoDup_cons.
  destruct s; auto. rewrite ?fmap_cons. apply NoDup_cons. split; [|auto].
  intros Hin. apply Hk. by apply columns_select_number.
Qed.

Lemma NoDup_select_object (df : pd.DataFrame) :
  NoDup (pd.columns df) -> NoDup (pd.columns (pd.select_object df)).
Proof.
  induction df as [|[k s] df IH]; simpl; [done|].
  unfold pd.columns in *. rewrite ?fmap_cons. intros [Hk Hnd]%NoDup_cons.
  destruct s; auto. rewrite ?fmap_cons. apply NoDup_cons. split; [|auto].
  intros Hin. apply Hk. by apply columns_select_object.
Qed.

(** ** The outlier mask *)

(** Summing the mask over all cells counts the present values outside the
    bounds: a NaN cell compares false on both sides. *)
Lemma sum_bool_outlier_mask (s : list float64) (lower upper : float64) :
  pd.sum_bool (pd.series_or (pd.series_lt s lower) (pd.series_gt s upper))
  = Spec.outlier_count (pd.dropna s) lower upper.
Proof.
  unfold Spec.outlier_count, pd.series_or, pd.series_lt, pd.series_gt.
  induction s as [|v s IH]; [done|].
  cbn [map zip_with pd.sum_bool foldr pd.dropna].
  fold (pd.sum_bool (zip_with orb (map (fun v => lt v lower) s)
                                  (map (fun v => gt v upper) s))).
  rewrite IH. destruct v as [|q].
  - unfold gt. by rewrite lt_nan_l, lt_nan_r.
  - cbn [List.filter]. by destruct (lt (Num q) lower || gt (Num q) upper).
Qed.

Lemma lookup_detect_outliers_iqr (self : EDAEngine.t) (col : string) :
  EDAEngine.detect_outliers_iqr self !! col
  = match pd.getitem (pd.select_number (EDAEngine.df self)) col with
    | Some s => outlier_entry s
    | None => None
    end.
Proof.
  unfold EDAEngine.detect_outliers_iqr.
  set (nums := pd.select_number (EDAEngine.df self)).
  set (f := fun c => match pd.getitem nums c with
                     | Some s => outlier_entry s | None => None end).
  transitivity
    (foldl (fun acc c => match f c with Some v => <[c := v]> acc | None => acc end)
           (∅ : gmap string nat) (pd.columns nums) !! col).
  - f_equal. apply foldl_ext_eq. intros acc c.
    unfold EDAEngine.outliers_step, f, outlier_entry.
    destruct (pd.getitem nums c) as [s|]; simpl; [|done].
    rewrite sum_bool_outlier_mask. by destruct (0 <? _)%nat.
  - rewrite lookup_foldl_insert, lookup_empty. fold (f col).
    case_decide as Hin.
    + by destruct (f col).
    + unfold f. by rewrite getitem_None.
Qed.

(** ** Sorting *)






(** ** Linear interpolation *)





Lemma same_refl (a : float64) : same a a.
Proof. destruct a; simpl; [done|reflexivity]. Qed.


(** ** Outlier detection *)



(** C10: a numeric column without any present value has NaN quartiles and
    NaN bounds, no cell compares true against them, its count is 0 and the
    result has no entry for it. *)
Theorem all_missing_column_omitted (self : EDAEngine.t) (col : string)
    (values : list float64) :
  NoDup (pd.columns (EDAEngine.df self)) ->
  (col, pd.NumSeries values) ∈ EDAEngine.df self ->
  Forall (fun v => v = NaN) values ->
  let Q1 := pd.quantile values (1 # 4) in
  let Q3 := pd.quantile values (3 # 4) in
  let IQR := sub Q3 Q1 in
  let lower_bound := sub Q1 (mul (Num (3 # 2)) IQR) in
  let upper_bound := add Q3 (mul (Num (3 # 2)) IQR) in
  let mask := pd.series_or (pd.series_lt values lower_bound)
                           (pd.series_gt values upper_bound) in
  Q1 = NaN /\ Q3 = NaN /\ lower_bound = NaN /\ upper_bound = NaN /\
  Forall (fun b => b = false) mask /\
  pd.sum_bool mask = 0%nat /\
  EDAEngine.detect_outliers_iqr self !! col = None.
Proof.
  intros Hnd Hin Hall.
  assert (Hdrop : pd.dropna values = []).
  { clear Hin. induction Hall as [|v vs -> _ IH]; [done|exact IH]. }
  assert (Hq : forall p, pd.quantile values p = NaN).
  { intros p. unfold pd.quantile. by rewrite Hdrop. }
  cbv zeta. rewrite !Hq. cbn [sub add mul].
  repeat split.
  - unfold pd.series_or, pd.series_lt, pd.series_gt.
    clear. induction values as [|v vs IH]; simpl; [constructor|].
    constructor; [|exact IH]. unfold gt. by rewrite lt_nan_r.
  - rewrite sum_bool_outlier_mask. unfold Spec.outlier_count. by rewrite Hdrop.
  - rewrite lookup_detect_outliers_iqr.
    rewrite (getitem_NoDup _ col values);
      [|by apply NoDup_select_number|by apply elem_of_select_number].
    unfold outlier_entry. rewrite !Hq. cbn [sub add mul].
    unfold Spec.outlier_count. by rewrite Hdrop.
Qed.

Lemma all_missing_column_omitted_witness :
  let self := {| EDAEngine.df := [("E"%string, pd.NumSeries [NaN; NaN; NaN])] |} in
  pd.quantile [NaN; NaN; NaN] (1 # 4) = NaN /\
  EDAEngine.detect_outliers_iqr self !! "E"%string = None.
Proof.
  intros self.
  pose proof (all_missing_column_omitted self "E" [NaN; NaN; NaN]) as H.
  cbv zeta in H.
  destruct H as (H1 & _ & _ & _ & _ & _ & H7).
  - apply (bool_decide_unpack _). vm_compute. reflexivity.
  - apply list_elem_of_here.
  - repeat constructor.
  - split; [exact H1|exact H7].
Defined.

(** C3: the missing-value result holds exactly the columns, numeric or not,
    with a strictly positive number of missing cells, each with that number;
    and no entry of the outlier result is 0. *)
Theorem only_positive_counts_reported :
  (forall (self : EDAEngine.t) (col : string) (n : nat),
      NoDup (pd.columns (EDAEngine.df self)) ->
      (EDAEngine.analyze_missing_values self !! col = Some n
       <-> exists s, (col, s) ∈ EDAEngine.df self /\
                     n = Spec.missing_count s /\ (0 < n)%nat)) /\
  (forall (self : EDAEngine.t) (col : string) (n : nat),
      EDAEngine.detect_outliers_iqr self !! col = Some n -> (0 < n)%nat).
Proof.
  split.
  - intros self col n Hnd. unfold EDAEngine.analyze_missing_values.
    assert (Hcount : forall s, pd.sum_bool (pd.isnull s) = Spec.missing_count s).
    { intros [vs|vs|vs]; simpl.
      - induction vs as [|v vs IH]; simpl; [done|]. rewrite IH. by destruct (isnan v).
      - induction vs as [|v vs IH]; simpl; [done|]. rewrite IH. by destruct v.
      - induction vs as [|v vs IH]; simpl; [done|]. exact IH. }
    assert (Hpos : forall k m, (k, m) ∈ pd.positive (pd.isnull_sum (EDAEngine.df self))
        <-> exists s, (k, s) ∈ EDAEngine.df self /\ m = Spec.missing_count s /\ (0 < m)%nat).
    { intros k m. unfold pd.positive, pd.isnull_sum.
      rewrite list_elem_of_In, filter_In, <- list_elem_of_In, list_elem_of_fmap.
      simpl. rewrite Nat.ltb_lt. split.
      - intros [[[k' s] [[= -> ->] Hin]] Hm]. exists s. by rewrite <- Hcount.
      - intros (s & Hin & -> & Hm). split; [|done]. exists (k, s).
        by rewrite Hcount. }
    rewrite lookup_to_dict; [apply Hpos|].
    set (df := EDAEngine.df self) in *. clearbody df. clear Hpos.
    unfold pd.columns in Hnd. induction df as [|[k s] df IH]; simpl; [constructor|].
    rewrite ?fmap_cons in Hnd. apply NoDup_cons in Hnd as [Hk Hnd].
    assert (Hsub : forall c, c ∈ (pd.positive (pd.isnull_sum df)).*1 -> c ∈ df.*1).
    { intros c. rewrite !list_elem_of_fmap. intros [[c' m] [-> Hc]].
      unfold pd.positive in Hc. rewrite list_elem_of_In, filter_In, <- list_elem_of_In in Hc.
      destruct Hc as [Hc _]. unfold pd.isnull_sum in Hc.
      apply list_elem_of_fmap in Hc as [[c'' s'] [[= -> _] Hc]]. by exists (c'', s'). }
    destruct (0 <? pd.sum_bool (pd.isnull s))%nat; [|by apply IH].
    rewrite ?fmap_cons. apply NoDup_cons. split; [|by apply IH].
    intros Hc. apply Hk. by apply Hsub.
  - intros self col n. rewrite lookup_detect_outliers_iqr.
    destruct (pd.getitem _ col) as [s|]; [|done].
    unfold outlier_entry. cbv zeta.
    destruct (0 <? _)%nat eqn:Hpos; [|done].
    intros [= <-]. by apply Nat.ltb_lt.
Qed.

Lemma only_positive_counts_reported_witness :
  EDAEngine.analyze_missing_values sample_engine !! "C"%string = Some 1%nat.
Proof.
  apply (proj1 only_positive_counts_reported sample_engine "C" 1%nat).
  - apply (bool_decide_unpack _). vm_compute. reflexivity.
  - exists (pd.NumSeries [Num (11 # 10); Num (22 # 10); NaN; Num (44 # 10); Num (55 # 10)]).
    split; [do 2 apply list_elem_of_further; apply list_elem_of_here|].
    split; [reflexivity|]. apply Nat.lt_0_1.
Defined.

(** ** Degenerate columns *)

Lemma Qsum_cons (x : Q) (l : list Q) : pd.Qsum (x :: l) = (x + pd.Qsum l)%Q.
Proof. reflexivity. Qed.










(** ** Correlations *)

Lemma to_dict_getitem {V} (items : list (string * V)) (k : string) :
  NoDup items.*1 -> pd.to_dict items !! k = pd.getitem items k.
Proof.
  intros Hnd. destruct (pd.getitem items k) as [v|] eqn:Hget.
  - apply lookup_to_dict; [done|]. by apply getitem_Some.
  - destruct (pd.to_dict items !! k) as [v|] eqn:Hlook; [|done].
    apply lookup_to_dict in Hlook; [|done].
    apply (getitem_NoDup _ _ _ Hnd) in Hlook. congruence.
Qed.

Lemma getitem_map {V W} (f : string -> V -> W) (items : list (string * V)) (k : string) :
  pd.getitem (map (fun a => (a.1, f a.1 a.2)) items) k = f k <$> pd.getitem items k.
Proof.
  induction items as [|[k' v] items IH]; simpl; [done|].
  destruct (String.eqb_spec k' k) as [->|Hne]; [done|exact IH].
Qed.

Lemma fst_map_keyed {V W} (f : string * V -> W) (items : list (string * V)) :
  (map (fun a => (a.1, f a)) items).*1 = items.*1.
Proof. induction items as [|a items IH]; [done|]. cbn. f_equal. exact IH. Qed.

(** The entries of the correlation matrix. *)
Lemma lookup2_corr (nums : list (string * list float64)) (A B : string) :
  NoDup nums.*1 ->
  lookup2 (pd.frame_to_dict (pd.corr nums)) A B
  = match pd.getitem nums A, pd.getitem nums B with
    | Some a, Some b => Some (pd.pearson a b)
    | _, _ => None
    end.
Proof.
  intros Hnd. unfold lookup2, pd.frame_to_dict, pd.corr.
  rewrite map_map. cbn [fst snd].
  rewrite to_dict_getitem by (by rewrite fst_map_keyed).
  rewrite (getitem_map (fun _ a => pd.to_dict (map (fun b => (b.1, pd.pearson a b.2)) nums))).
  destruct (pd.getitem nums A) as [a|]; simpl; [|done].
  rewrite to_dict_getitem by (by rewrite fst_map_keyed).
  rewrite (getitem_map (fun _ b => pd.pearson a b)).
  by destruct (pd.getitem nums B).
Qed.

Lemma fst_map_pairs {A} (f g : A -> Q) (l : list A) :
  (map (fun x => (f x, g x)) l).*1 = f <$> l.
Proof. induction l as [|a l IH]; [done|]. cbn. f_equal. exact IH. Qed.

Lemma snd_map_pairs {A} (f g : A -> Q) (l : list A) :
  (map (fun x => (f x, g x)) l).*2 = g <$> l.
Proof. induction l as [|a l IH]; [done|]. cbn. f_equal. exact IH. Qed.

Lemma complete_pairs_swap (xs ys : list float64) :
  pd.complete_pairs ys xs = map (fun p => (p.2, p.1)) (pd.complete_pairs xs ys).
Proof.
  revert ys. induction xs as [|x xs IH]; intros [|y ys]; simpl; try done.
  - by destruct y.
  - by destruct x.
  - destruct x, y; simpl; by rewrite IH.
Qed.


Lemma Qsum_ext {A} (f g : A -> Q) (l : list A) :
  (forall x, f x == g x)%Q -> (pd.Qsum (map f l) == pd.Qsum (map g l))%Q.
Proof.
  intros H. induction l as [|x l IH]; [reflexivity|].
  cbn [map]. rewrite !Qsum_cons, IH, (H x). reflexivity.
Qed.

Lemma Qeq_bool_comp (x y : Q) : (x == y)%Q -> Qeq_bool x 0 = Qeq_bool y 0.
Proof.
  intros H. destruct (Qeq_bool x 0) eqn:Hx, (Qeq_bool y 0) eqn:Hy; try done.
  - apply Qeq_bool_iff in Hx. apply Qeq_bool_neq in Hy. exfalso. apply Hy. by rewrite <- H.
  - apply Qeq_bool_iff in Hy. apply Qeq_bool_neq in Hx. exfalso. apply Hx. by rewrite H.
Qed.

(** The coefficient does not depend on the order of the two columns. *)
Lemma pearson_sym (xs ys : list float64) : pd.pearson xs ys = pd.pearson ys xs.
Proof.
  unfold pd.pearson. rewrite (complete_pairs_swap xs ys).
  generalize (pd.complete_pairs xs ys). intros P.
  rewrite (fst_map_pairs snd fst P), (snd_map_pairs snd fst P).
  destruct P as [|p P0]; [done|].
  set (P := p :: P0).
  assert (Hm : forall X : option R,
    match map (fun p : Q * Q => (p.2, p.1)) P with [] => None | _ :: _ => X end = X)
    by done.
  rewrite Hm. rewrite map_map. cbn [fst snd].
  assert (Hss : (pd.ssqdm P.*1 * pd.ssqdm P.*2 == pd.ssqdm P.*2 * pd.ssqdm P.*1)%Q) by ring.
  rewrite (Qeq_bool_comp _ _ Hss).
  destruct (Qeq_bool (pd.ssqdm P.*2 * pd.ssqdm P.*1) 0); [done|].
  f_equal. f_equal.
  - apply Qeq_eqR. apply Qsum_ext. intros x. ring.
  - f_equal. by apply Qeq_eqR.
Qed.







(** ** Empty selections *)



(** ** Descriptive statistics *)






Lemma NoDup_filter_keys {V} (f : string * V -> bool) (items : list (string * V)) :
  NoDup items.*1 -> NoDup (List.filter f items).*1.
Proof.
  induction items as [|a items IH]; [done|].
  rewrite fmap_cons. intros [Ha Hnd]%NoDup_cons. cbn [List.filter].
  destruct (f a); [|auto]. rewrite fmap_cons. apply NoDup_cons. split; [|auto].
  intros Hin. apply Ha. apply list_elem_of_fmap in Hin as [b [-> Hb]].
  apply list_elem_of_fmap. exists b. split; [done|].
  apply list_elem_of_In. apply list_elem_of_In, filter_In in Hb. tauto.
Qed.



Example text_only_basic_stats :
  EDAEngine.get_basic_stats text_only_engine
  = inr {[ "B"%string :=
             pd.Categorical {| pd.cs_count := 5; pd.cs_unique := 3;
                               pd.cs_top := Some (pd.Str "x");
                               pd.cs_freq := Some 3%nat |} ]}.
Proof. vm_compute. reflexivity. Qed.



(** ** Counting the values of a column *)

Section counting.
Context {A : Type} `{EqDecision A}.
Implicit Types (v x : A) (l : list A) (t : list (A * nat)).

Lemma bump_keys x t :
  (pd.bump x t).*1 = if decide (x ∈ t.*1) then t.*1 else t.*1 ++ [x].
Proof.
  induction t as [|[k n] t IH]; [done|].
  cbn [pd.bump]. destruct (decide (k = x)) as [->|Hne].
  - rewrite !fmap_cons. cbn [fst].
    by rewrite decide_True by apply list_elem_of_here.
  - rewrite !fmap_cons, IH. cbn [fst].
    destruct (decide (x ∈ t.*1)) as [Hin|Hnin].
    + by rewrite decide_True by (by apply list_elem_of_further).
    + rewrite decide_False; [done|]. rewrite elem_of_cons. intros [->|?]; done.
Qed.

Lemma assoc_bump v x t :
  Spec.assoc v (pd.bump x t)
  = if decide (v = x) then Some (S (default 0%nat (Spec.assoc x t))) else Spec.assoc v t.
Proof.
  induction t as [|[k n] t IH].
  - cbn. destruct (decide (x = v)) as [->|Hne].
    + by rewrite decide_True.
    + rewrite decide_False; [done|]. congruence.
  - cbn [pd.bump Spec.assoc]. destruct (decide (k = x)) as [->|Hkx].
    + cbn [Spec.assoc]. destruct (decide (x = v)) as [->|Hxv].
      * by rewrite decide_True.
      * rewrite decide_False; [done|]. congruence.
    + cbn [Spec.assoc]. destruct (decide (k = v)) as [->|Hkv].
      * rewrite decide_False; [done|]. congruence.
      * exact IH.
Qed.

Lemma count_table_snoc l x :
  pd.count_table (l ++ [x]) = pd.bump x (pd.count_table l).
Proof. unfold pd.count_table. by rewrite foldl_app. Qed.

Lemma occurrences_snoc v l x :
  Spec.occurrences v (l ++ [x])
  = (Spec.occurrences v l + if decide (v = x) then 1 else 0)%nat.
Proof.
  unfold Spec.occurrences. rewrite List.filter_app, length_app. cbn [List.filter].
  destruct (decide (v = x)) as [->|Hne].
  - by rewrite bool_decide_eq_true_2.
  - rewrite bool_decide_eq_false_2; [done|]. congruence.
Qed.

Lemma occurrences_zero v l : v ∉ l -> Spec.occurrences v l = 0%nat.
Proof.
  unfold Spec.occurrences. induction l as [|x l IH]; [done|].
  rewrite not_elem_of_cons. intros [Hne Hnin]. cbn [List.filter].
  rewrite bool_decide_eq_false_2 by congruence. auto.
Qed.

Lemma occurrences_pos v l : v ∈ l -> (0 < Spec.occurrences v l)%nat.
Proof.
  unfold Spec.occurrences. induction l as [|x l IH]; [by intros ?%elem_of_nil|].
  cbn [List.filter]. destruct (decide (x = v)) as [->|Hne].
  - rewrite bool_decide_eq_true_2 by done. simpl. lia.
  - rewrite bool_decide_eq_false_2 by done. rewrite elem_of_cons.
    intros [->|Hin]; [done|auto].
Qed.

Lemma keys_count_table v l : v ∈ (pd.count_table l).*1 <-> v ∈ l.
Proof.
  induction l as [|x l IH] using rev_ind; [done|].
  rewrite count_table_snoc, bump_keys, elem_of_app, list_elem_of_singleton.
  case_decide as Hx; [|rewrite elem_of_app, list_elem_of_singleton; tauto].
  split; [tauto|]. intros [Hv| ->]; tauto.
Qed.

Lemma NoDup_count_table l : NoDup (pd.count_table l).*1.
Proof.
  induction l as [|x l IH] using rev_ind; [constructor|].
  rewrite count_table_snoc, bump_keys. case_decide as Hx; [done|].
  apply NoDup_app. split; [done|]. split; [|apply NoDup_singleton].
  intros y Hy ->%list_elem_of_singleton. done.
Qed.

Lemma assoc_count_table v l :
  Spec.assoc v (pd.count_table l)
  = if decide (v ∈ l) then Some (Spec.occurrences v l) else None.
Proof.
  induction l as [|x l IH] using rev_ind.
  - cbn. by rewrite decide_False by apply not_elem_of_nil.
  - rewrite count_table_snoc, assoc_bump, occurrences_snoc.
    destruct (decide (v = x)) as [->|Hne].
    + rewrite decide_True by (apply elem_of_app; right; apply list_elem_of_here).
      rewrite IH. case_decide as Hx; simpl; f_equal; [lia|].
      rewrite occurrences_zero by done. lia.
    + rewrite IH. case_decide as Hv.
      * rewrite decide_True by (apply elem_of_app; by left). f_equal. lia.
      * rewrite decide_False; [done|].
        rewrite elem_of_app, list_elem_of_singleton. tauto.
Qed.

Lemma elem_of_assoc v n t : NoDup t.*1 -> (v, n) ∈ t <-> Spec.assoc v t = Some n.
Proof.
  induction t as [|[k m] t IH]; cbn [Spec.assoc].
  - intros _. split; [by intros ?%elem_of_nil|done].
  - rewrite fmap_cons. intros [Hk Hnd]%NoDup_cons. cbn [fst] in Hk.
    rewrite elem_of_cons. destruct (decide (k = v)) as [->|Hne].
    + split.
      * intros [[= ->]|Hin]; [done|]. exfalso. apply Hk.
        apply list_elem_of_fmap. by exists (v, n).
      * intros [= ->]. by left.
    + rewrite <- IH by done. split; [|tauto]. intros [[= -> ->]|Hin]; done.
Qed.

(** An entry of the table is a present value with its number of
    occurrences. *)
Lemma elem_of_count_table v n l :
  (v, n) ∈ pd.count_table l <-> v ∈ l /\ n = Spec.occurrences v l.
Proof.
  rewrite elem_of_assoc by apply NoDup_count_table.
  rewrite assoc_count_table. case_decide as Hv.
  - split; [intros [= <-]; done|]. by intros [_ ->].
  - split; [done|]. tauto.
Qed.

Lemma first_index_lt v l : v ∈ l -> (Spec.first_index v l < length l)%nat.
Proof.
  induction l as [|x l IH]; [by intros ?%elem_of_nil|].
  cbn [Spec.first_index length]. destruct (decide (x = v)) as [->|Hne]; [lia|].
  rewrite elem_of_cons. intros [->|Hin]; [done|]. apply IH in Hin. lia.
Qed.

Lemma first_index_app_l v l l' :
  v ∈ l -> Spec.first_index v (l ++ l') = Spec.first_index v l.
Proof.
  induction l as [|x l IH]; [by intros ?%elem_of_nil|].
  cbn [app Spec.first_index]. destruct (decide (x = v)) as [->|Hne]; [done|].
  rewrite elem_of_cons. intros [->|Hin]; [done|]. by rewrite IH.
Qed.

Lemma first_index_new x l :
  x ∉ l -> Spec.first_index x (l ++ [x]) = length l.
Proof.
  induction l as [|y l IH]; cbn [app Spec.first_index length].
  - intros _. by rewrite decide_True.
  - rewrite not_elem_of_cons. intros [Hne Hnin].
    rewrite decide_False by congruence. by rewrite IH.
Qed.

(** The keys of the table are in the order in which they are first met. *)
Lemma count_table_first_met l :
  StronglySorted (fun a b => Spec.first_index a l < Spec.first_index b l)%nat
                 (pd.count_table l).*1.
Proof.
  induction l as [|x l IH] using rev_ind; [constructor|].
  rewrite count_table_snoc, bump_keys.
  assert (Hold : StronglySorted
            (fun a b => Spec.first_index a (l ++ [x]) < Spec.first_index b (l ++ [x]))%nat
            (pd.count_table l).*1).
  { assert (Hin : Forall (fun a => a ∈ l) (pd.count_table l).*1).
    { apply Forall_forall. intros a. apply keys_count_table. }
    revert IH Hin. generalize ((pd.count_table l).*1). intros K.
    induction 1 as [|a K HK IHK Ha]; intros Hin; [constructor|].
    apply Forall_cons in Hin as [Hal HinK]. constructor; [auto|].
    rewrite Forall_forall in Ha, HinK |- *. intros b Hb.
    rewrite !first_index_app_l by auto. auto. }
  case_decide as Hx; [done|].
  assert (Hxl : x ∉ l) by (by rewrite <- keys_count_table).
  revert Hold.
  assert (Hin : Forall (fun a => a ∈ l) (pd.count_table l).*1).
  { apply Forall_forall. intros a. apply keys_count_table. }
  revert Hin. generalize ((pd.count_table l).*1). intros K Hin.
  induction 1 as [|a K HK IHK Ha]; cbn [app].
  - repeat constructor.
  - apply Forall_cons in Hin as [Hal HinK]. constructor; [auto|].
    apply Forall_app. split; [done|]. constructor; [|constructor].
    rewrite first_index_app_l by done. rewrite first_index_new by done.
    by apply first_index_lt.
Qed.

End counting.

(** ** Ranking by frequency *)

Section ranking.
Context {A : Type} `{EqDecision A}.
Implicit Types (x y : A * nat) (t L : list (A * nat)).

Lemma insert_desc_perm x L : Permutation (pd.insert_desc x L) (x :: L).
Proof.
  induction L as [|y L IH]; cbn [pd.insert_desc]; [done|].
  destruct (x.2 <? y.2)%nat; [|done]. rewrite IH. apply perm_swap.
Qed.

Lemma sort_values_desc_perm t : Permutation (pd.sort_values_desc t) t.
Proof.
  induction t as [|x t IH]; cbn [pd.sort_values_desc foldr]; [done|].
  fold (pd.sort_values_desc t). rewrite insert_desc_perm. by constructor.
Qed.

Variable rk : A -> nat.

Lemma insert_desc_sorted x L :
  StronglySorted (Spec.by_count_then_rank rk) L ->
  Forall (fun y => (rk x.1 < rk y.1)%nat) L ->
  StronglySorted (Spec.by_count_then_rank rk) (pd.insert_desc x L).
Proof.
  induction 1 as [|y L HL IH Hy]; intros Hrk; cbn [pd.insert_desc].
  - repeat constructor.
  - apply Forall_cons in Hrk as [Hxy Hrk].
    destruct (x.2 <? y.2)%nat eqn:Hlt.
    + apply Nat.ltb_lt in Hlt. constructor; [auto|].
      eapply Permutation_Forall; [symmetry; apply insert_desc_perm|].
      constructor; [by left|done].
    + apply Nat.ltb_ge in Hlt. constructor; [by constructor|].
      constructor.
      * destruct (decide (y.2 = x.2)) as [Heq|Hne]; [right; done|left; lia].
      * rewrite Forall_forall in Hy, Hrk |- *. intros z Hz.
        assert (Hzy : (z.2 <= y.2)%nat).
        { destruct (Hy z Hz) as [?|[? _]]; lia. }
        destruct (decide (z.2 = x.2)) as [Heq|Hne]; [right|left; lia].
        split; [done|]. by apply Hrk.
Qed.

(** The sort is stable: a table in ascending rank comes out ordered by
    count, equal counts staying in ascending rank. *)
Lemma sort_values_desc_sorted t :
  StronglySorted (fun a b => rk a.1 < rk b.1)%nat t ->
  StronglySorted (Spec.by_count_then_rank rk) (pd.sort_values_desc t).
Proof.
  induction 1 as [|x t Ht IH Hx]; cbn [pd.sort_values_desc foldr]; [constructor|].
  fold (pd.sort_values_desc t). apply insert_desc_sorted; [done|].
  eapply Permutation_Forall; [symmetry; apply sort_values_desc_perm|done].
Qed.

End ranking.

Lemma StronglySorted_weaken {A} (R1 R2 : A -> A -> Prop) (l : list A) :
  (forall a b, R1 a b -> R2 a b) -> StronglySorted R1 l -> StronglySorted R2 l.
Proof.
  intros HR. induction 1 as [|x l Hl IH Hx]; constructor; [done|].
  eapply Forall_impl; [exact Hx|]. auto.
Qed.

Lemma StronglySorted_keys {A B} (f : A -> B) (R : B -> B -> Prop) (l : list A) :
  StronglySorted R (f <$> l) -> StronglySorted (fun a b => R (f a) (f b)) l.
Proof.
  induction l as [|x l IH]; [constructor|].
  rewrite fmap_cons. intros Hs. apply StronglySorted_inv in Hs as [Hl Hx].
  constructor; [auto|]. rewrite Forall_fmap in Hx. exact Hx.
Qed.

(** ** Missing cells of a text column *)


Lemma dropna_obj_cons {A} (o : option A) (values : list (option A)) :
  pd.dropna_obj (o :: values)
  = match o with Some v => v :: pd.dropna_obj values | None => pd.dropna_obj values end.
Proof. by destruct o. Qed.

Lemma occurrences_cons {A} `{EqDecision A} (v x : A) (l : list A) :
  Spec.occurrences v (x :: l)
  = ((if decide (x = v) then 1 else 0) + Spec.occurrences v l)%nat.
Proof.
  unfold Spec.occurrences. cbn [List.filter].
  destruct (decide (x = v)).
  - by rewrite bool_decide_eq_true_2.
  - by rewrite bool_decide_eq_false_2.
Qed.



(** ** Categorical summary *)

Lemma lookup_get_categorical_summary (self : EDAEngine.t) (col : string)
    (values : list (option string)) :
  NoDup (pd.columns (EDAEngine.df self)) ->
  (col, pd.ObjSeries values) ∈ EDAEngine.df self ->
  EDAEngine.get_categorical_summary self !! col
  = Some {| EDAEngine.unique_count := pd.nunique (pd.dropna_obj values);
            EDAEngine.top_freq := pd.head 3 (pd.value_counts (pd.dropna_obj values)) |}.
Proof.
  intros Hnd Hin. unfold EDAEngine.get_categorical_summary.
  set (f := fun c => match pd.getitem (EDAEngine.df self) c with
                     | Some (pd.ObjSeries vs) =>
                         Some {| EDAEngine.unique_count := pd.nunique (pd.dropna_obj vs);
                                 EDAEngine.top_freq :=
                                   pd.head 3 (pd.value_counts (pd.dropna_obj vs)) |}
                     | _ => None
                     end).
  transitivity
    (foldl (fun acc c => match f c with Some v => <[c := v]> acc | None => acc end)
           (∅ : gmap string EDAEngine.categorical_summary)
           (pd.columns (pd.select_object (EDAEngine.df self))) !! col).
  - f_equal. apply foldl_ext_eq. intros acc c.
    unfold EDAEngine.categorical_step, f.
    by destruct (pd.getitem (EDAEngine.df self) c) as [[| |]|].
  - rewrite lookup_foldl_insert.
    rewrite decide_True.
    + unfold f. by rewrite (getitem_NoDup _ col (pd.ObjSeries values)).
    + unfold pd.columns. apply list_elem_of_fmap. exists (col, values).
      split; [done|]. by apply elem_of_select_object.
Qed.



(** ** Construction *)

Lemma init_from_path (parse_file : string -> pd.exn + pd.DataFrame)
    (path : string) (table : pd.DataFrame) :
  parse_file path = inr table ->
  EDAEngine.__init__ parse_file (pd.PyStr path) = inr {| EDAEngine.df := table |}.
Proof. intros H. unfold EDAEngine.__init__, pd.read_csv. by rewrite H. Qed.

(** C8: the constructor hands its argument to [read_csv]; given a table
    instead of a path it raises, whatever the files are, and so does the
    constructor of the report generator, which passes its table on. *)
Theorem init_rejects_in_memory_table :
  forall (parse_file : string -> pd.exn + pd.DataFrame) (table : pd.DataFrame),
    EDAEngine.__init__ parse_file (pd.PyDataFrame table) = inl pd.ValueError /\
    forall title : string,
      ReportGenerator.__init__ parse_file table title = inl pd.ValueError.
Proof. intros parse_file table. split; [reflexivity|]. intros title. reflexivity. Qed.

(** ** Repeated calls *)




(** * Further properties of the engine *)

(** ** Order of the quantiles *)









Lemma Qsum_bounds (lo hi : Q) (l : list Q) :
  (forall x, x ∈ l -> lo <= x /\ x <= hi)%Q ->
  (inject_Z (Z.of_nat (length l)) * lo <= pd.Qsum l)%Q /\
  (pd.Qsum l <= inject_Z (Z.of_nat (length l)) * hi)%Q.
Proof.
  induction l as [|x l IH]; intros Hx.
  - change (inject_Z (Z.of_nat (length (@nil Q)))) with 0%Q.
    change (pd.Qsum []) with 0%Q. split; lra.
  - rewrite Qsum_cons. cbn [length]. rewrite Nat2Z.inj_succ. unfold Z.succ.
    rewrite inject_Z_plus. change (inject_Z 1) with 1%Q.
    destruct (Hx x (list_elem_of_here _ _)) as [H1 H2].
    destruct IH as [IH1 IH2]; [intros y Hy; by apply Hx, list_elem_of_further|].
    split; lra.
Qed.







(** ** Which values the outlier detector can flag *)











(** ** Range and degenerate cases of the correlation coefficient *)

Lemma lookup2_get_correlations (self : EDAEngine.t) (A B : string)
    (a b : list float64) :
  NoDup (pd.columns (EDAEngine.df self)) ->
  (A, pd.NumSeries a) ∈ EDAEngine.df self ->
  (B, pd.NumSeries b) ∈ EDAEngine.df self ->
  pd.empty (pd.select_number (EDAEngine.df self)) = false ->
  lookup2 (EDAEngine.get_correlations self) A B = Some (pd.pearson a b).
Proof.
  intros Hnd HA HB Hempty. unfold EDAEngine.get_correlations.
  rewrite Hempty. apply NoDup_select_number in Hnd.
  rewrite lookup2_corr by exact Hnd.
  rewrite (getitem_NoDup _ A a Hnd) by (by apply elem_of_select_number).
  by rewrite (getitem_NoDup _ B b Hnd) by (by apply elem_of_select_number).
Qed.








Lemma complete_pairs_fst (xs ys : list float64) (x : Q) :
  x ∈ (pd.complete_pairs xs ys).*1 -> x ∈ pd.dropna xs.
Proof.
  revert ys. induction xs as [|v xs IH]; intros ys.
  - destruct ys; by intros ?%elem_of_nil.
  - destruct ys as [|w ys].
    + destruct v; by intros ?%elem_of_nil.
    + destruct v as [|q], w as [|y]; cbn [pd.complete_pairs pd.dropna].
      * apply IH.
      * apply IH.
      * intros Hx. apply list_elem_of_further. by apply (IH ys).
      * rewrite fmap_cons, !elem_of_cons. intros [->|Hx]; [by left|right].
        by apply (IH ys).
Qed.

Lemma Qsum_zero {A} (f : A -> Q) (l : list A) :
  (forall x, x ∈ l -> f x == 0)%Q -> (pd.Qsum (map f l) == 0)%Q.
Proof.
  induction l as [|x l IH]; intros H; [reflexivity|].
  cbn [map]. rewrite Qsum_cons, (H x) by apply list_elem_of_here.
  rewrite IH; [ring|]. intros y Hy. by apply H, list_elem_of_further.
Qed.

(** The sum of squared deviations of equal values is zero. *)
Lemma ssqdm_constant (c : Q) (l : list Q) :
  (forall x, x ∈ l -> x == c)%Q -> (pd.ssqdm l == 0)%Q.
Proof.
  intros Hc. destruct l as [|x0 l0] eqn:Hl; [reflexivity|]. rewrite <- Hl in *.
  assert (Hn : (0 < inject_Z (Z.of_nat (length l)))%Q).
  { rewrite Hl. change 0%Q with (inject_Z 0). rewrite <- Zlt_Qlt. simpl. lia. }
  destruct (Qsum_bounds c c l) as [H1 H2].
  { intros y Hy. rewrite (Hc y Hy). split; apply Qle_refl. }
  assert (Hmean : (pd.Qmean l == c)%Q).
  { unfold pd.Qmean. apply Qle_antisym.
    - apply Qle_shift_div_r; [done|]. lra.
    - apply Qle_shift_div_l; [done|]. lra. }
  unfold pd.ssqdm. apply Qsum_zero. intros y Hy. rewrite Hmean, (Hc y Hy). ring.
Qed.

(** No coefficient is defined against a column of equal values. *)
Lemma pearson_constant (xs ys : list float64) (c : Q) :
  (forall x, x ∈ pd.dropna xs -> x == c)%Q -> pd.pearson xs ys = None.
Proof.
  intros Hc. unfold pd.pearson.
  destruct (pd.complete_pairs xs ys) as [|p P] eqn:HP; [done|]. rewrite <- HP.
  assert (Hss : (pd.ssqdm (pd.complete_pairs xs ys).*1 == 0)%Q).
  { apply (ssqdm_constant c). intros x Hx. by apply Hc, (complete_pairs_fst xs ys). }
  assert (Hz : Qeq_bool (pd.ssqdm (pd.complete_pairs xs ys).*1
                         * pd.ssqdm (pd.complete_pairs xs ys).*2) 0 = true).
  { apply Qeq_bool_iff. rewrite Hss. ring. }
  by rewrite Hz.
Qed.

(** X6: a numeric column whose present values are all equal has an
    undefined (NaN) coefficient with every numeric column, itself included,
    in both positions of the matrix. *)
Theorem constant_column_correlation_undefined (self : EDAEngine.t) (A B : string)
    (a b : list float64) (c : Q) :
  NoDup (pd.columns (EDAEngine.df self)) ->
  (A, pd.NumSeries a) ∈ EDAEngine.df self ->
  (B, pd.NumSeries b) ∈ EDAEngine.df self ->
  pd.empty (pd.select_number (EDAEngine.df self)) = false ->
  (forall x, x ∈ pd.dropna a -> x == c)%Q ->
  lookup2 (EDAEngine.get_correlations self) A B = Some None /\
  lookup2 (EDAEngine.get_correlations self) B A = Some None.
Proof.
  intros Hnd HA HB Hempty Hc.
  rewrite (lookup2_get_correlations self A B a b), (lookup2_get_correlations self B A b a)
    by done.
  rewrite (pearson_sym b a), (pearson_constant a b c) by done. done.
Qed.

Lemma constant_column_correlation_undefined_witness :
  let self := {| EDAEngine.df := [("A"%string, pd.NumSeries [Num 1; Num 2; Num 3]);
                                  ("K"%string, pd.NumSeries [Num 7; NaN; Num 7])] |} in
  lookup2 (EDAEngine.get_correlations self) "K" "A" = Some None /\
  lookup2 (EDAEngine.get_correlations self) "A" "K" = Some None.
Proof.
  intros self.
  apply (constant_column_correlation_undefined self "K" "A"
           [Num 7; NaN; Num 7] [Num 1; Num 2; Num 3] 7%Q).
  - apply (bool_decide_unpack _). vm_compute. reflexivity.
  - apply list_elem_of_further, list_elem_of_here.
  - apply list_elem_of_here.
  - reflexivity.
  - intros x Hx. cbn in Hx. rewrite !elem_of_cons in Hx.
    destruct Hx as [->|[->|Hx]]; [reflexivity|reflexivity|by apply elem_of_nil in Hx].
Defined.

(** X7: a table without rows has an empty correlation result even when it
    has numeric columns. *)
Theorem correlations_of_table_without_rows (self : EDAEngine.t) :
  pd.well_formed (EDAEngine.df self) ->
  pd.nrows (EDAEngine.df self) = 0%nat ->
  EDAEngine.get_correlations self = ∅.
Proof.
  intros [_ Hlen] Hrows. unfold EDAEngine.get_correlations.
  destruct (pd.select_number (EDAEngine.df self)) as [|[k vs] rest] eqn:E; [done|].
  assert (Hk : (k, pd.NumSeries vs) ∈ EDAEngine.df self).
  { apply elem_of_select_number. rewrite E. apply list_elem_of_here. }
  apply Hlen in Hk. simpl in Hk. rewrite Hrows in Hk.
  unfold pd.empty. by rewrite Hk.
Qed.

Lemma correlations_of_table_without_rows_witness :
  EDAEngine.get_correlations
    {| EDAEngine.df := [("A"%string, pd.NumSeries []); ("B"%string, pd.ObjSeries [])] |} = ∅.
Proof.
  apply correlations_of_table_without_rows; [|reflexivity].
  split; [apply (bool_decide_unpack _); vm_compute; reflexivity|].
  intros c s Hin. cbn [EDAEngine.df] in Hin. rewrite !elem_of_cons in Hin.
  destruct Hin as [[= -> ->]|[[= -> ->]|Hin]]; [reflexivity..|by apply elem_of_nil in Hin].
Defined.

(** ** Totals of the categorical summary *)

Section totals.
Context {A : Type} `{EqDecision A}.

Lemma sum_bump (x : A) (t : list (A * nat)) :
  sum_list (pd.bump x t).*2 = S (sum_list t.*2).
Proof.
  induction t as [|[k n] t IH]; [done|].
  cbn [pd.bump]. destruct (decide (k = x)); [done|].
  rewrite !fmap_cons. cbn [sum_list_with snd]. rewrite IH. cbn. lia.
Qed.

(** The counts of the table add up to the number of values counted. *)
Lemma sum_count_table (l : list A) : sum_list (pd.count_table l).*2 = length l.
Proof.
  induction l as [|x l IH] using rev_ind; [done|].
  rewrite count_table_snoc, sum_bump, IH, length_app. simpl. lia.
Qed.

Lemma sum_value_counts (l : list A) : sum_list (pd.value_counts l).*2 = length l.
Proof.
  rewrite <- (sum_count_table l). unfold pd.value_counts.
  by rewrite (sort_values_desc_perm (pd.count_table l)).
Qed.

Lemma length_value_counts (l : list A) : length (pd.value_counts l) = pd.nunique l.
Proof. unfold pd.value_counts, pd.nunique. by rewrite (sort_values_desc_perm _). Qed.

End totals.

Lemma sum_list_take_le (n : nat) (l : list nat) : sum_list (take n l) <= sum_list l.
Proof.
  rewrite <- (take_drop n l) at 2. rewrite sum_list_with_app. lia.
Qed.

(** X8: for a text column, [top_freq] has min(3, unique_count) entries; its
    counts add up to at most the number of present cells, and to exactly
    that number when the column has at most three distinct values; and
    [unique_count] is at most the number of present cells. *)
Theorem top_freq_totals (self : EDAEngine.t) (col : string)
    (values : list (option string)) :
  NoDup (pd.columns (EDAEngine.df self)) ->
  (col, pd.ObjSeries values) ∈ EDAEngine.df self ->
  exists summary,
    EDAEngine.get_categorical_summary self !! col = Some summary /\
    length (EDAEngine.top_freq summary) = 3 `min` EDAEngine.unique_count summary /\
    sum_list (EDAEngine.top_freq summary).*2 <= length (pd.dropna_obj values) /\
    (EDAEngine.unique_count summary <= 3 ->
     sum_list (EDAEngine.top_freq summary).*2 = length (pd.dropna_obj values)) /\
    EDAEngine.unique_count summary <= length (pd.dropna_obj values).
Proof.
  intros Hnd Hin. eexists. split; [by apply lookup_get_categorical_summary|].
  cbn [EDAEngine.top_freq EDAEngine.unique_count]. unfold pd.head.
  set (present := pd.dropna_obj values).
  split; [by rewrite length_take, length_value_counts|].
  split.
  { rewrite fmap_take, <- (sum_value_counts present). apply sum_list_take_le. }
  split.
  { intros Hle. rewrite take_ge by (rewrite length_value_counts; lia).
    apply sum_value_counts. }
  unfold pd.nunique. rewrite <- (length_fmap fst).
  assert (Hsub : (pd.count_table present).*1 ⊆ present).
  { intros v. apply keys_count_table. }
  apply submseteq_length, NoDup_submseteq; [apply NoDup_count_table|done].
Qed.

Lemma top_freq_totals_witness :
  exists summary,
    EDAEngine.get_categorical_summary sample_engine !! "B"%string = Some summary /\
    length (EDAEngine.top_freq summary) = 3 `min` EDAEngine.unique_count summary /\
    sum_list (EDAEngine.top_freq summary).*2
      <= length (pd.dropna_obj [Some "x"; Some "y"; Some "x"; Some "z"; Some "x"]%string) /\
    (EDAEngine.unique_count summary <= 3 ->
     sum_list (EDAEngine.top_freq summary).*2
       = length (pd.dropna_obj [Some "x"; Some "y"; Some "x"; Some "z"; Some "x"]%string)) /\
    EDAEngine.unique_count summary
      <= length (pd.dropna_obj [Some "x"; Some "y"; Some "x"; Some "z"; Some "x"]%string).
Proof.
  apply (top_freq_totals sample_engine "B").
  - apply (bool_decide_unpack _). vm_compute. reflexivity.
  - apply list_elem_of_further, list_elem_of_here.
Defined.

(** X9: with distinct column labels, the categorical summary has an entry
    exactly for the text columns; numeric and boolean columns never appear. *)
Theorem categorical_summary_keys (self : EDAEngine.t) (col : string) :
  NoDup (pd.columns (EDAEngine.df self)) ->
  is_Some (EDAEngine.get_categorical_summary self !! col)
  <-> exists values, (col, pd.ObjSeries values) ∈ EDAEngine.df self.
Proof.
  intros Hnd. split.
  - intros [summary Hs]. unfold EDAEngine.get_categorical_summary in Hs.
    destruct (decide (col ∈ pd.columns (pd.select_object (EDAEngine.df self))))
      as [Hcol|Hcol].
    + unfold pd.columns in Hcol. apply list_elem_of_fmap in Hcol as [[k vs] [-> Hk]].
      exists vs. by apply elem_of_select_object.
    + exfalso.
      assert (Hkeep : forall cols m, col ∉ cols ->
                foldl (EDAEngine.categorical_step self) m cols !! col = m !! col).
      { induction cols as [|c cols IH]; intros m Hc; [done|].
        rewrite not_elem_of_cons in Hc. destruct Hc as [Hne Hc].
        cbn [foldl]. rewrite IH by done. unfold EDAEngine.categorical_step.
        destruct (pd.getitem (EDAEngine.df self) c) as [[| |]|]; try done.
        by rewrite lookup_insert_ne. }
      rewrite Hkeep in Hs by done. by rewrite lookup_empty in Hs.
  - intros [values Hin]. rewrite (lookup_get_categorical_summary self col values) by done.
    eauto.
Qed.

Lemma categorical_summary_keys_witness :
  is_Some (EDAEngine.get_categorical_summary sample_engine !! "A"%string)
  <-> exists values, ("A"%string, pd.ObjSeries values) ∈ EDAEngine.df sample_engine.
Proof.
  apply (categorical_summary_keys sample_engine "A").
  apply (bool_decide_unpack _). vm_compute. reflexivity.
Defined.

(** * The command line and the report generator *)

(** ** Totals printed by [main] *)

Lemma sum_values_insert (m : gmap string nat) (k : string) (v : nat) :
  m !! k = None -> Main.sum_values (<[k := v]> m) = (v + Main.sum_values m)%nat.
Proof.
  intros Hk. unfold Main.sum_values. apply map_fold_insert_L; [|done].
  intros. lia.
Qed.

Lemma to_dict_snoc {V} (items : list (string * V)) (k : string) (v : V) :
  pd.to_dict (items ++ [(k, v)]) = <[k := v]> (pd.to_dict items).
Proof. unfold pd.to_dict. by rewrite foldl_app. Qed.

(** The values of a dictionary built from distinct labels add up to the
    values listed. *)
Lemma sum_values_to_dict (items : list (string * nat)) :
  NoDup items.*1 -> Main.sum_values (pd.to_dict items) = sum_list items.*2.
Proof.
  induction items as [|[k v] items IH] using rev_ind; intros Hnd.
  - unfold Main.sum_values, pd.to_dict. cbn [foldl]. by rewrite map_fold_empty.
  - rewrite fmap_app in Hnd. apply NoDup_app in Hnd as (Hnd & Hk & _).
    rewrite to_dict_snoc, sum_values_insert.
    + rewrite IH by done. rewrite fmap_app, sum_list_with_app. cbn. lia.
    + rewrite to_dict_getitem by done. apply getitem_None.
      intros Hin. apply (Hk k Hin). cbn. apply list_elem_of_here.
Qed.

Lemma sum_bool_isnull (s : pd.Series) : pd.sum_bool (pd.isnull s) = Spec.missing_count s.
Proof.
  destruct s as [vs|vs|vs]; simpl.
  - induction vs as [|v vs IH]; simpl; [done|]. rewrite IH. by destruct (isnan v).
  - induction vs as [|v vs IH]; simpl; [done|]. rewrite IH. by destruct v.
  - induction vs as [|v vs IH]; simpl; [done|]. exact IH.
Qed.

Lemma NoDup_positive_keys (df : pd.DataFrame) :
  NoDup (pd.columns df) -> NoDup (pd.positive (pd.isnull_sum df)).*1.
Proof.
  intros Hnd. unfold pd.positive. apply NoDup_filter_keys.
  unfold pd.isnull_sum. by rewrite (fst_map_keyed (fun cs => pd.sum_bool (pd.isnull cs.2))).
Qed.

Lemma sum_positive (l : list (string * nat)) :
  sum_list (pd.positive l).*2 = sum_list l.*2.
Proof.
  unfold pd.positive. induction l as [|[k n] l IH]; [done|].
  cbn [List.filter snd]. rewrite fmap_cons. cbn [sum_list_with snd].
  rewrite <- IH. destruct (0 <? n)%nat eqn:Hn.
  - rewrite fmap_cons. reflexivity.
  - apply Nat.ltb_ge in Hn. assert (n = 0%nat) as -> by lia. reflexivity.
Qed.

(** The total of the missing-value result is the number of missing cells of
    the table. *)
Lemma sum_analyze_missing_values (self : EDAEngine.t) :
  NoDup (pd.columns (EDAEngine.df self)) ->
  Main.sum_values (EDAEngine.analyze_missing_values self)
  = sum_list (map (fun cs => Spec.missing_count cs.2) (EDAEngine.df self)).
Proof.
  intros Hnd. unfold EDAEngine.analyze_missing_values.
  rewrite sum_values_to_dict by (by apply NoDup_positive_keys).
  rewrite sum_positive. unfold pd.isnull_sum. clear Hnd.
  induction (EDAEngine.df self) as [|cs df IH]; [done|].
  cbn. rewrite sum_bool_isnull. f_equal. apply IH.
Qed.

Lemma outlier_entry_flagged (s : list float64) :
  outlier_entry s
  = if (0 <? flagged_count s)%nat then Some (flagged_count s) else None.
Proof. reflexivity. Qed.

(** The outlier result as a dictionary of the positive counts. *)
Lemma detect_outliers_iqr_to_dict (self : EDAEngine.t) :
  NoDup (pd.columns (EDAEngine.df self)) ->
  EDAEngine.detect_outliers_iqr self
  = pd.to_dict (pd.positive (map (fun cs => (cs.1, flagged_count cs.2))
                                 (pd.select_number (EDAEngine.df self)))).
Proof.
  intros Hnd. apply NoDup_select_number in Hnd.
  set (nums := pd.select_number (EDAEngine.df self)) in *.
  assert (Hkeys : NoDup (pd.positive (map (fun cs => (cs.1, flagged_count cs.2)) nums)).*1).
  { unfold pd.positive. apply NoDup_filter_keys.
    by rewrite (fst_map_keyed (fun cs => flagged_count cs.2)). }
  apply map_eq. intros col. rewrite lookup_detect_outliers_iqr. fold nums.
  destruct (pd.to_dict _ !! col) as [n|] eqn:Hn.
  - apply lookup_to_dict in Hn; [|done].
    unfold pd.positive in Hn. apply list_elem_of_In, filter_In in Hn as [Hn Hpos].
    apply in_map_iff in Hn as [[k s] [[= -> <-] Hin]]. cbn [snd] in Hpos.
    rewrite (getitem_NoDup _ col s Hnd) by (by apply list_elem_of_In).
    by rewrite outlier_entry_flagged, Hpos.
  - destruct (pd.getitem nums col) as [s|] eqn:Hget; [|done].
    rewrite outlier_entry_flagged.
    destruct (0 <? flagged_count s)%nat eqn:Hpos; [|done].
    exfalso. assert (Hsome : pd.to_dict
      (pd.positive (map (fun cs => (cs.1, flagged_count cs.2)) nums)) !! col
      = Some (flagged_count s)).
    { apply lookup_to_dict; [done|]. unfold pd.positive.
      apply list_elem_of_In, filter_In. split; [|done].
      apply in_map_iff. exists (col, s). split; [done|].
      by apply list_elem_of_In, getitem_Some. }
    congruence.
Qed.

Lemma sum_detect_outliers_iqr (self : EDAEngine.t) :
  NoDup (pd.columns (EDAEngine.df self)) ->
  Main.sum_values (EDAEngine.detect_outliers_iqr self)
  = sum_list (map (fun cs => flagged_count cs.2) (pd.select_number (EDAEngine.df self))).
Proof.
  intros Hnd. rewrite detect_outliers_iqr_to_dict by done.
  assert (Hnums := NoDup_select_number _ Hnd).
  rewrite sum_values_to_dict.
  - rewrite sum_positive. generalize (pd.select_number (EDAEngine.df self)).
    intros nums. induction nums as [|cs nums IH]; [done|]. cbn. by rewrite IH.
  - unfold pd.positive. apply NoDup_filter_keys.
    by rewrite (fst_map_keyed (fun cs => flagged_count cs.2)).
Qed.

(** X10: when the data file parses to a table with distinct column labels
    and the report can be written, [main] prints, after the two progress
    lines, the row and column numbers of the table, the number of missing
    cells of the whole table as "Missing Values", and the number of flagged
    cells over all numeric columns as "Outliers Detected". *)
Theorem main_quick_summary
    (parse_file : string -> pd.exn + pd.DataFrame)
    (write_json : string -> Main.report -> option Main.failure)
    (file output : string) (df : pd.DataFrame) :
  parse_file file = inr df ->
  NoDup (pd.columns df) ->
  df <> [] ->
  (forall r, write_json output r = None) ->
  Main.main parse_file write_json file output
  = [Main.Analyzing file; Main.Saved output; Main.QuickSummary;
     Main.RowsColumns (pd.nrows df) (length df);
     Main.MissingValues (sum_list (map (fun cs => Spec.missing_count cs.2) df));
     Main.OutliersDetected
       (sum_list (map (fun cs => flagged_count cs.2) (pd.select_number df)))].
Proof.
  intros Hparse Hnd Hne Hwrite. unfold Main.main, EDAEngine.__init__, pd.read_csv.
  rewrite Hparse.
  destruct (EDAEngine.get_basic_stats {| EDAEngine.df := df |}) as [e|stats] eqn:Hstats.
  { unfold EDAEngine.get_basic_stats, pd.describe in Hstats. cbn [EDAEngine.df] in Hstats.
    destruct df; [done|discriminate]. }
  rewrite Hwrite. cbn [Main.shape Main.missing_values Main.outliers_detected
                       Main.df_shape EDAEngine.df fst snd].
  rewrite sum_analyze_missing_values, sum_detect_outliers_iqr by done.
  reflexivity.
Qed.

Lemma main_quick_summary_witness :
  Main.main (fun _ => inr sample_data) (fun _ _ => None) "data.csv" "eda_report.json"
  = [Main.Analyzing "data.csv"; Main.Saved "eda_report.json"; Main.QuickSummary;
     Main.RowsColumns (pd.nrows sample_data) (length sample_data);
     Main.MissingValues (sum_list (map (fun cs => Spec.missing_count cs.2) sample_data));
     Main.OutliersDetected
       (sum_list (map (fun cs => flagged_count cs.2) (pd.select_number sample_data)))].
Proof.
  apply (main_quick_summary (fun _ => inr sample_data) (fun _ _ => None)
           "data.csv" "eda_report.json" sample_data).
  - reflexivity.
  - apply (bool_decide_unpack _). vm_compute. reflexivity.
  - discriminate.
  - reflexivity.
Defined.

(** X11: [main] prints the message that the data file was not found both
    when the data file is missing and when the data file was read but
    opening the output file raises [FileNotFoundError]: the message names
    the data file in either case, and nothing else is printed after
    "Analyzing". *)
Theorem main_file_not_found_names_data_file
    (parse_file : string -> pd.exn + pd.DataFrame)
    (write_json : string -> Main.report -> option Main.failure)
    (file output : string) :
  (parse_file file = inl pd.FileNotFoundError \/
   exists df, parse_file file = inr df /\ df <> [] /\
              forall r, write_json output r = Some Main.NotFound) ->
  Main.main parse_file write_json file output
  = [Main.Analyzing file; Main.ErrorFileNotFound file].
Proof.
  intros [Hparse|(df & Hparse & Hne & Hwrite)];
    unfold Main.main, EDAEngine.__init__, pd.read_csv; rewrite Hparse; [done|].
  destruct (EDAEngine.get_basic_stats {| EDAEngine.df := df |}) as [e|stats] eqn:Hstats.
  { unfold EDAEngine.get_basic_stats, pd.describe in Hstats. cbn [EDAEngine.df] in Hstats.
    destruct df; [done|discriminate]. }
  by rewrite Hwrite.
Qed.

Lemma main_file_not_found_names_data_file_witness :
  Main.main (fun _ => inr sample_data) (fun _ _ => Some Main.NotFound)
            "data.csv" "missing_dir/report.json"
  = [Main.Analyzing "data.csv"; Main.ErrorFileNotFound "data.csv"].
Proof.
  apply (main_file_not_found_names_data_file (fun _ => inr sample_data)
           (fun _ _ => Some Main.NotFound) "data.csv" "missing_dir/report.json").
  right. exists sample_data. split; [reflexivity|]. split; [discriminate|reflexivity].
Defined.

(** ** The report generator *)

(** X12: [generate_report] never returns a page: on an engine whose table
    has a column it raises [AttributeError] at [self.engine.get_missing_values],
    a method the engine does not define (on a table without columns
    [get_basic_stats] raises first); [save_report] raises the same and writes
    no file. *)
Theorem generate_report_always_raises :
  forall (render : ReportGenerator.t -> EDAEngine.result -> EDAEngine.result ->
                   EDAEngine.result -> EDAEngine.result ->
                   ReportGenerator.raised + string)
         (self : ReportGenerator.t),
  exists e,
    ReportGenerator.generate_report render self = inl e /\
    e = (match EDAEngine.df (ReportGenerator.engine self) with
         | [] => ReportGenerator.Raised pd.ValueError
         | _ => ReportGenerator.AttributeError "get_missing_values"
         end) /\
    forall filepath files,
      ReportGenerator.save_report render self filepath files = inl e.
Proof.
  intros render self.
  assert (Hgen : ReportGenerator.generate_report render self
    = inl (match EDAEngine.df (ReportGenerator.engine self) with
           | [] => ReportGenerator.Raised pd.ValueError
           | _ => ReportGenerator.AttributeError "get_missing_values"
           end)).
  { unfold ReportGenerator.generate_report, ReportGenerator.call_method.
    cbn [EDAEngine.method String.eqb Ascii.eqb Bool.eqb EDAEngine.call fst].
    unfold EDAEngine.get_basic_stats, pd.describe.
    destruct (EDAEngine.df (ReportGenerator.engine self)); reflexivity. }
  eexists. split; [exact Hgen|]. split; [reflexivity|].
  intros filepath files. unfold ReportGenerator.save_report. by rewrite Hgen.
Qed.

(** * The visualizer *)

(** ** Histograms and heatmap *)

Lemma getitem_select_number (df : pd.DataFrame) (c : string) (vs : list float64) :
  NoDup (pd.columns df) -> (c, vs) ∈ pd.select_number df ->
  pd.getitem df c = Some (pd.NumSeries vs).
Proof. intros Hnd Hin. apply getitem_NoDup; [done|]. by apply elem_of_select_number. Qed.

Lemma histplots_numeric (self : Visualizer.t) (nums : list (string * list float64)) :
  (forall c vs, (c, vs) ∈ nums -> pd.getitem (Visualizer.df self) c = Some (pd.NumSeries vs)) ->
  Visualizer.histplots self (pd.columns nums)
  = inr (map (fun cs => Visualizer.Histplot (pd.NumSeries cs.2)
                          ("Distribution of " +:+ cs.1)) nums).
Proof.
  induction nums as [|[c vs] nums IH]; intros Hget; [done|].
  unfold pd.columns in *. rewrite fmap_cons. cbn [Visualizer.histplots fst].
  rewrite (Hget c vs) by apply list_elem_of_here.
  rewrite IH; [done|]. intros c' vs' Hin. by apply Hget, list_elem_of_further.
Qed.

(** X13: called without a column list on a table with distinct labels,
    [plot_histograms] does not raise; it returns no figure when the table
    has no numeric column, and otherwise one histogram per numeric column,
    in table order, of that column's cells, titled "Distribution of" that
    column. *)
Theorem plot_histograms_default (self : Visualizer.t) :
  NoDup (pd.columns (Visualizer.df self)) ->
  Visualizer.plot_histograms self None
  = inr (match pd.select_number (Visualizer.df self) with
         | [] => None
         | nums => Some (map (fun cs => Visualizer.Histplot (pd.NumSeries cs.2)
                                          ("Distribution of " +:+ cs.1)) nums)
         end).
Proof.
  intros Hnd. unfold Visualizer.plot_histograms.
  rewrite histplots_numeric by (intros c vs; by apply getitem_select_number).
  by destruct (pd.select_number (Visualizer.df self)) as [|[c vs] nums].
Qed.

Lemma plot_histograms_default_witness :
  Visualizer.plot_histograms {| Visualizer.df := sample_data |} None
  = inr (match pd.select_number sample_data with
         | [] => None
         | nums => Some (map (fun cs => Visualizer.Histplot (pd.NumSeries cs.2)
                                          ("Distribution of " +:+ cs.1)) nums)
         end).
Proof.
  apply (plot_histograms_default {| Visualizer.df := sample_data |}).
  apply (bool_decide_unpack _). vm_compute. reflexivity.
Defined.

Lemma sample_data_well_formed : pd.well_formed sample_data.
Proof.
  split; [apply (bool_decide_unpack _); vm_compute; reflexivity|].
  intros c s Hin. unfold sample_data in Hin. rewrite !elem_of_cons in Hin.
  destruct Hin as [[= -> ->]|[[= -> ->]|[[= -> ->]|[[= -> ->]|Hin]]]];
    [reflexivity..|by apply elem_of_nil in Hin].
Qed.

(** X14: [plot_correlation_heatmap] draws a matrix exactly when the table
    has a numeric column, one row and one column per numeric column.  When
    the table also has rows, the matrix is the engine's correlation result;
    when it has no rows the engine returns the empty result while the
    heatmap is still drawn, every entry undefined. *)
Theorem heatmap_and_engine (df : pd.DataFrame) :
  pd.well_formed df ->
  (pd.select_number df = [] ->
   Visualizer.plot_correlation_heatmap {| Visualizer.df := df |} = None /\
   EDAEngine.get_correlations {| EDAEngine.df := df |} = ∅) /\
  (pd.select_number df <> [] ->
   exists m,
     Visualizer.plot_correlation_heatmap {| Visualizer.df := df |} = Some m /\
     m.*1 = pd.columns (pd.select_number df) /\
     (0 < pd.nrows df ->
      pd.frame_to_dict m = EDAEngine.get_correlations {| EDAEngine.df := df |}) /\
     (pd.nrows df = 0 ->
      EDAEngine.get_correlations {| EDAEngine.df := df |} = ∅ /\
      forall A row B r, (A, row) ∈ m -> (B, r) ∈ row -> r = None)).
Proof.
  intros [Hnd Hlen]. unfold Visualizer.plot_correlation_heatmap, EDAEngine.get_correlations.
  cbn [Visualizer.df EDAEngine.df]. split.
  - by intros ->.
  - intros Hne.
    assert (Hrows : forall c vs, (c, vs) ∈ pd.select_number df -> length vs = pd.nrows df).
    { intros c vs Hin. apply elem_of_select_number in Hin. by apply Hlen in Hin. }
    destruct (pd.select_number df) as [|[c vs] nums] eqn:E; [done|]. rewrite <- E in *.
    assert (Hempty : pd.empty (pd.corr (pd.select_number df)) = false) by (by rewrite E).
    rewrite Hempty. eexists. split; [reflexivity|].
    split; [apply (fst_map_keyed (fun a => map (fun b => (b.1, pd.pearson a.2 b.2))
                                               (pd.select_number df)))|].
    assert (Hvs : length vs = pd.nrows df) by (apply (Hrows c); rewrite E; apply list_elem_of_here).
    assert (Hemp : pd.empty (pd.select_number df) = (pd.nrows df =? 0)%nat).
    { rewrite E. cbn. by rewrite Hvs. }
    rewrite Hemp. split.
    + intros Hpos. destruct (Nat.eqb_spec (pd.nrows df) 0); [lia|done].
    + intros H0. rewrite H0. split; [done|].
      intros A row B r HA HB. unfold pd.corr in HA.
      apply list_elem_of_In, in_map_iff in HA as [[a va] [[= <- <-] Ha]].
      apply list_elem_of_In, in_map_iff in HB as [[b vb] [[= <- <-] Hb]].
      cbn [fst snd]. apply list_elem_of_In, Hrows in Ha. rewrite H0 in Ha.
      apply length_zero_iff_nil in Ha. subst va. reflexivity.
Qed.

Lemma heatmap_and_engine_witness :
  exists m,
    Visualizer.plot_correlation_heatmap {| Visualizer.df := sample_data |} = Some m /\
    m.*1 = pd.columns (pd.select_number sample_data) /\
    (0 < pd.nrows sample_data ->
     pd.frame_to_dict m = EDAEngine.get_correlations {| EDAEngine.df := sample_data |}) /\
    (pd.nrows sample_data = 0 ->
     EDAEngine.get_correlations {| EDAEngine.df := sample_data |} = ∅ /\
     forall A row B r, (A, row) ∈ m -> (B, r) ∈ row -> r = None).
Proof.
  apply (proj2 (heatmap_and_engine sample_data sample_data_well_formed)).
  discriminate.
Defined.

(** ** Count plots *)

Lemma length_mask_list {A} (mask : list bool) (cells : list A) :
  length mask = length cells -> length (pd.mask_list mask cells) = pd.sum_bool mask.
Proof.
  revert cells. induction mask as [|b mask IH]; intros [|x cells] Hlen; try done.
  cbn in Hlen. cbn [pd.mask_list pd.sum_bool foldr].
  fold (pd.sum_bool mask). destruct b; cbn [length]; rewrite IH; lia.
Qed.

Lemma series_len_mask_series (mask : list bool) (s : pd.Series) :
  length mask = pd.series_len s ->
  pd.series_len (pd.mask_series mask s) = pd.sum_bool mask.
Proof. destruct s; cbn [pd.series_len pd.mask_series]; apply length_mask_list. Qed.

Lemma mask_list_map {A B} (f : A -> B) (mask : list bool) (cells : list A) :
  pd.mask_list mask (map f cells) = map f (pd.mask_list mask cells).
Proof.
  revert cells. induction mask as [|b mask IH]; intros [|x cells]; try done.
  cbn [map pd.mask_list]. destruct b; cbn [map]; by rewrite IH.
Qed.

Lemma mask_list_filter {A} (p : A -> bool) (cells : list A) :
  pd.mask_list (map p cells) cells = List.filter p cells.
Proof.
  induction cells as [|x cells IH]; [done|].
  cbn [map pd.mask_list List.filter]. destruct (p x); by rewrite IH.
Qed.

Lemma sum_bool_map {A} (p : A -> bool) (cells : list A) :
  pd.sum_bool (map p cells) = length (List.filter p cells).
Proof.
  induction cells as [|x cells IH]; [done|].
  cbn [map pd.sum_bool foldr List.filter]. fold (pd.sum_bool (map p cells)).
  destruct (p x); cbn [length]; by rewrite IH.
Qed.

Lemma categories_mask_series (mask : list bool) (s : pd.Series) :
  pd.categories (pd.mask_series mask s) = pd.mask_list mask (pd.categories s).
Proof. destruct s; cbn [pd.categories pd.mask_series]; by rewrite mask_list_map. Qed.

Lemma length_categories (s : pd.Series) : length (pd.categories s) = pd.series_len s.
Proof. destruct s; cbn [pd.categories pd.series_len]; apply length_map. Qed.

Lemma isnull_categories (s : pd.Series) :
  pd.isnull s
  = map (fun c : option pd.category => match c with Some _ => false | None => true end)
        (pd.categories s).
Proof.
  destruct s; cbn [pd.isnull pd.categories]; rewrite map_map; apply map_ext;
    intros x; by destruct x.
Qed.

(** The cells kept by [s.isin(K)] are the present cells that are in [K]. *)
Lemma categories_isin (s : pd.Series) (K : list pd.category) :
  pd.categories (pd.mask_series (pd.isin s K) s)
  = Some <$> List.filter (fun v => bool_decide (v ∈ K)) (Visualizer.present_categories s).
Proof.
  rewrite categories_mask_series. unfold pd.isin, Visualizer.present_categories.
  rewrite mask_list_filter.
  induction (pd.categories s) as [|[v|] cats IH]; [done| |].
  - rewrite dropna_obj_cons. cbn [List.filter].
    destruct (bool_decide (v ∈ K)); rewrite ?fmap_cons; by rewrite IH.
  - rewrite dropna_obj_cons. cbn [List.filter]. exact IH.
Qed.

Lemma dropna_obj_Some {A} (l : list A) : pd.dropna_obj (Some <$> l) = l.
Proof.
  induction l as [|x l IH]; [done|]. rewrite fmap_cons, dropna_obj_cons. by rewrite IH.
Qed.

Lemma length_filter_keys {A} `{EqDecision A} (K l : list A) :
  NoDup K ->
  length (List.filter (fun v => bool_decide (v ∈ K)) l)
  = sum_list ((fun k => Spec.occurrences k l) <$> K).
Proof.
  induction 1 as [|k K Hk HK IH].
  - cbn. induction l as [|x l IHl]; [done|]. cbn [List.filter].
    rewrite bool_decide_eq_false_2; [done|]. apply not_elem_of_nil.
  - rewrite fmap_cons. cbn [sum_list sum_list_with].
    fold (sum_list ((fun k => Spec.occurrences k l) <$> K)).
    rewrite <- IH. clear IH. unfold Datatypes.id.
    induction l as [|x l IHl]; [done|].
    rewrite occurrences_cons. cbn [List.filter].
    destruct (decide (x = k)) as [->|Hne].
    + rewrite bool_decide_eq_true_2 by apply list_elem_of_here.
      rewrite (bool_decide_eq_false_2 (k ∈ K)) by done.
      cbn [length]. rewrite IHl. lia.
    + destruct (decide (x ∈ K)) as [Hin|Hnin].
      * rewrite !bool_decide_eq_true_2; [|done|by apply list_elem_of_further].
        cbn [length]. rewrite IHl. lia.
      * rewrite !bool_decide_eq_false_2; [|done|].
        -- rewrite IHl. lia.
        -- rewrite elem_of_cons. intros [?|?]; done.
Qed.

Lemma snd_by_key {A} (f : A -> nat) (t : list (A * nat)) :
  (forall k n, (k, n) ∈ t -> n = f k) -> t.*2 = f <$> t.*1.
Proof.
  induction t as [|[k n] t IH]; intros Hf; [done|].
  rewrite !fmap_cons. cbn [fst snd]. f_equal.
  - apply Hf, list_elem_of_here.
  - apply IH. intros k' n' Hin. by apply Hf, list_elem_of_further.
Qed.

Lemma StronglySorted_app_inv {A} (R : A -> A -> Prop) (l1 l2 : list A) :
  StronglySorted R (l1 ++ l2) -> forall a b, a ∈ l1 -> b ∈ l2 -> R a b.
Proof.
  induction l1 as [|x l1 IH]; intros Hs a b Ha Hb; [by apply elem_of_nil in Ha|].
  cbn [app] in Hs. apply StronglySorted_inv in Hs as [Hs Hx].
  apply elem_of_cons in Ha as [->|Ha]; [|by apply IH].
  rewrite Forall_forall in Hx. apply Hx. apply elem_of_app. by right.
Qed.

Section top_categories.
Context {A : Type} `{EqDecision A}.

Lemma value_counts_entries (l : list A) (k : A) (n : nat) :
  (k, n) ∈ pd.value_counts l <-> k ∈ l /\ n = Spec.occurrences k l.
Proof.
  unfold pd.value_counts. rewrite (sort_values_desc_perm (pd.count_table l)).
  apply elem_of_count_table.
Qed.

Lemma NoDup_value_counts (l : list A) : NoDup (pd.value_counts l).*1.
Proof.
  unfold pd.value_counts.
  rewrite (fmap_Permutation fst _ _ (sort_values_desc_perm (pd.count_table l))).
  apply NoDup_count_table.
Qed.

Lemma value_counts_descending (l : list A) :
  StronglySorted (fun a b => b.2 <= a.2) (pd.value_counts l).
Proof.
  eapply StronglySorted_weaken;
    [|apply (sort_values_desc_sorted (fun v => Spec.first_index v l))].
  - intros a b [Hlt|[Heq _]]; lia.
  - apply (StronglySorted_keys fst (fun a b => Spec.first_index a l
                                               < Spec.first_index b l)).
    apply count_table_first_met.
Qed.

(** The keys of the first [n] rows of [value_counts]: distinct, each at
    least as frequent as any value left out. *)
Lemma head_value_counts (n : nat) (l : list A) :
  let top := (pd.head n (pd.value_counts l)).*1 in
  NoDup top /\
  length top = Nat.min n (pd.nunique l) /\
  (forall v, v ∈ top -> v ∈ l) /\
  (forall v w, v ∈ top -> w ∈ l -> w ∉ top ->
     Spec.occurrences w l <= Spec.occurrences v l) /\
  sum_list ((fun k => Spec.occurrences k l) <$> top) <= length l /\
  (pd.nunique l <= n -> sum_list ((fun k => Spec.occurrences k l) <$> top) = length l).
Proof.
  intros top. unfold top, pd.head.
  pose proof (NoDup_value_counts l) as Hnd.
  pose proof (value_counts_descending l) as Hdesc.
  rewrite <- (take_drop n (pd.value_counts l)) in Hnd, Hdesc.
  rewrite fmap_app in Hnd. apply NoDup_app in Hnd as (Hnd1 & Hdisj & _).
  assert (Hsub : forall k m, (k, m) ∈ take n (pd.value_counts l) ->
                             k ∈ l /\ m = Spec.occurrences k l).
  { intros k m Hin. apply value_counts_entries.
    rewrite <- (take_drop n (pd.value_counts l)). apply elem_of_app. by left. }
  assert (Hsnd : (take n (pd.value_counts l)).*2
                 = (fun k => Spec.occurrences k l) <$> (take n (pd.value_counts l)).*1).
  { apply snd_by_key. intros k m Hin. by apply Hsub. }
  split; [done|].
  split; [by rewrite length_fmap, length_take, length_value_counts|].
  split.
  { intros v Hv. apply list_elem_of_fmap in Hv as [[k m] [-> Hin]].
    by apply (Hsub k m). }
  split.
  { intros v w Hv Hw Hnw.
    apply list_elem_of_fmap in Hv as [[k m] [-> Hin]]. cbn [fst].
    pose proof (Hsub k m Hin) as [_ Hm].
    assert (Hwin : (w, Spec.occurrences w l) ∈ pd.value_counts l)
      by (by apply value_counts_entries).
    rewrite <- (take_drop n (pd.value_counts l)) in Hwin.
    apply elem_of_app in Hwin as [Hwin|Hwin].
    - exfalso. apply Hnw. apply list_elem_of_fmap. by exists (w, Spec.occurrences w l).
    - pose proof (StronglySorted_app_inv _ _ _ Hdesc _ _ Hin Hwin) as Hle.
      cbn [snd] in Hle. lia. }
  rewrite <- Hsnd. split.
  - rewrite fmap_take, <- (sum_value_counts l). apply sum_list_take_le.
  - intros Hn. rewrite take_ge by (rewrite length_value_counts; lia).
    apply sum_value_counts.
Qed.

End top_categories.

Lemma length_isin (s : pd.Series) (K : list pd.category) :
  length (pd.isin s K) = pd.series_len s.
Proof. unfold pd.isin. by rewrite length_map, length_categories. Qed.

Lemma sum_bool_isin (s : pd.Series) (K : list pd.category) :
  NoDup K ->
  pd.sum_bool (pd.isin s K)
  = sum_list ((fun k => Spec.occurrences k (Visualizer.present_categories s)) <$> K).
Proof.
  intros HK. rewrite <- (series_len_mask_series _ s) by apply length_isin.
  rewrite <- length_categories, categories_isin, length_fmap.
  by apply length_filter_keys.
Qed.

(** [df[mask]] with a mask as long as the table: same columns, and as many
    rows as the mask has True cells. *)
Lemma mask_rows_well_formed (mask : list bool) (df : pd.DataFrame) :
  pd.well_formed df -> length mask = pd.nrows df ->
  pd.well_formed (pd.mask_rows mask df) /\
  pd.columns (pd.mask_rows mask df) = pd.columns df /\
  (df <> [] -> pd.nrows (pd.mask_rows mask df) = pd.sum_bool mask).
Proof.
  intros [Hnd Hlen] Hmask.
  assert (Hcols : pd.columns (pd.mask_rows mask df) = pd.columns df)
    by apply (fst_map_keyed (fun cs => pd.mask_series mask cs.2)).
  assert (Hrows : forall c s', (c, s') ∈ pd.mask_rows mask df ->
                               pd.series_len s' = pd.sum_bool mask).
  { intros c s' Hin. apply list_elem_of_In, in_map_iff in Hin as [[c0 s0] [[= <- <-] Hin]].
    apply series_len_mask_series. cbn [snd]. rewrite Hmask. symmetry.
    by apply (Hlen c0), list_elem_of_In. }
  assert (Hn : df <> [] -> pd.nrows (pd.mask_rows mask df) = pd.sum_bool mask).
  { destruct df as [|[c0 s0] df]; [done|]. intros _. cbn [pd.mask_rows map pd.nrows fst snd].
    apply (Hrows c0). apply list_elem_of_here. }
  split; [|done]. split; [by rewrite Hcols|].
  intros c s' Hin. rewrite (Hrows c s' Hin).
  destruct df as [|a df]; [by apply elem_of_nil in Hin|]. symmetry. by apply Hn.
Qed.

(** X15: for a column of a table with distinct labels and columns of equal
    length, the count plot of that column is ordered by at most twenty
    distinct categories, none less frequent than a category left out.  The
    table handed to the plot has the columns of the original table and one
    row per cell of the column that holds one of these categories: never
    more rows than the column has present cells, exactly as many when the
    column has at most twenty distinct values, and no row whose cell in the
    column is missing. *)
Theorem countplot_keeps_top_categories (self : Visualizer.t) (col : string)
    (s : pd.Series) :
  pd.well_formed (Visualizer.df self) ->
  (col, s) ∈ Visualizer.df self ->
  exists data order,
    Visualizer.plot_categorical_counts self (Some [col])
    = inr (Some [Visualizer.Countplot col data order
                   ("Count of " +:+ col +:+ " (Top 20)")]) /\
    NoDup order /\
    length order = Nat.min 20 (pd.nunique (Visualizer.present_categories s)) /\
    (forall v w, v ∈ order -> w ∈ Visualizer.present_categories s -> w ∉ order ->
       Spec.occurrences w (Visualizer.present_categories s)
       <= Spec.occurrences v (Visualizer.present_categories s)) /\
    pd.well_formed data /\
    pd.columns data = pd.columns (Visualizer.df self) /\
    pd.nrows data
    = sum_list ((fun k => Spec.occurrences k (Visualizer.present_categories s)) <$> order) /\
    pd.nrows data <= length (Visualizer.present_categories s) /\
    (pd.nunique (Visualizer.present_categories s) <= 20 ->
     pd.nrows data = length (Visualizer.present_categories s)) /\
    exists kept,
      pd.getitem data col = Some kept /\
      pd.categories kept
      = Some <$> List.filter (fun v => bool_decide (v ∈ order))
                             (Visualizer.present_categories s).
Proof.
  intros Hwf Hin. pose proof Hwf as [Hnd Hlen].
  set (present := Visualizer.present_categories s).
  destruct (head_value_counts 20 present) as (Hnd' & Hlen' & _ & Hmax & Hle & Heq).
  set (order := (pd.head 20 (pd.value_counts present)).*1) in *.
  assert (Hmask : length (pd.isin s order) = pd.nrows (Visualizer.df self)).
  { rewrite length_isin. by apply (Hlen col). }
  destruct (mask_rows_well_formed _ _ Hwf Hmask) as (Hwf' & Hcols & Hrows).
  assert (Hne : Visualizer.df self <> []).
  { intros E. rewrite E in Hin. by apply elem_of_nil in Hin. }
  specialize (Hrows Hne). rewrite sum_bool_isin in Hrows by done. fold present in Hrows.
  exists (pd.mask_rows (pd.isin s order) (Visualizer.df self)), order.
  split.
  { unfold Visualizer.plot_categorical_counts. cbn [length Nat.eqb Visualizer.countplots].
    by rewrite (getitem_NoDup _ col s Hnd Hin). }
  split; [done|]. split; [done|]. split; [done|]. split; [done|]. split; [done|].
  split; [done|]. split; [by rewrite Hrows|]. split; [intros Hn; rewrite Hrows; auto|].
  exists (pd.mask_series (pd.isin s order) s). split.
  - unfold pd.mask_rows.
    rewrite (getitem_map (fun _ => pd.mask_series (pd.isin s order))).
    by rewrite (getitem_NoDup _ col s Hnd Hin).
  - apply categories_isin.
Qed.

Lemma countplot_keeps_top_categories_witness :
  exists data order,
    Visualizer.plot_categorical_counts {| Visualizer.df := sample_data |} (Some ["B"%string])
    = inr (Some [Visualizer.Countplot "B" data order
                   ("Count of " +:+ "B" +:+ " (Top 20)")]) /\
    NoDup order /\
    length order
    = Nat.min 20 (pd.nunique (Visualizer.present_categories
                                (pd.ObjSeries [Some "x"; Some "y"; Some "x"; Some "z"; Some "x"]%string))) /\
    (forall v w, v ∈ order ->
       w ∈ Visualizer.present_categories
             (pd.ObjSeries [Some "x"; Some "y"; Some "x"; Some "z"; Some "x"]%string) ->
       w ∉ order ->
       Spec.occurrences w (Visualizer.present_categories
             (pd.ObjSeries [Some "x"; Some "y"; Some "x"; Some "z"; Some "x"]%string))
       <= Spec.occurrences v (Visualizer.present_categories
             (pd.ObjSeries [Some "x"; Some "y"; Some "x"; Some "z"; Some "x"]%string))) /\
    pd.well_formed data /\
    pd.columns data = pd.columns sample_data /\
    pd.nrows data
    = sum_list ((fun k => Spec.occurrences k (Visualizer.present_categories
             (pd.ObjSeries [Some "x"; Some "y"; Some "x"; Some "z"; Some "x"]%string))) <$> order) /\
    pd.nrows data <= length (Visualizer.present_categories
             (pd.ObjSeries [Some "x"; Some "y"; Some "x"; Some "z"; Some "x"]%string)) /\
    (pd.nunique (Visualizer.present_categories
             (pd.ObjSeries [Some "x"; Some "y"; Some "x"; Some "z"; Some "x"]%string)) <= 20 ->
     pd.nrows data = length (Visualizer.present_categories
             (pd.ObjSeries [Some "x"; Some "y"; Some "x"; Some "z"; Some "x"]%string))) /\
    exists kept,
      pd.getitem data "B" = Some kept /\
      pd.categories kept
      = Some <$> List.filter (fun v => bool_decide (v ∈ order))
                   (Visualizer.present_categories
                      (pd.ObjSeries [Some "x"; Some "y"; Some "x"; Some "z"; Some "x"]%string)).
Proof.
  apply (countplot_keeps_top_categories {| Visualizer.df := sample_data |} "B"
           (pd.ObjSeries [Some "x"; Some "y"; Some "x"; Some "z"; Some "x"]%string)).
  - exact sample_data_well_formed.
  - apply list_elem_of_further, list_elem_of_here.
Defined.

(** ** Pair plot *)

Lemma getitem_is_Some {V} (items : list (string * V)) (c : string) :
  c ∈ items.*1 -> is_Some (pd.getitem items c).
Proof.
  intros Hin. destruct (pd.getitem items c) as [v|] eqn:Hget; [by exists v|].
  exfalso. revert Hin Hget. induction items as [|[k v] items IH]; cbn [pd.getitem].
  - intros Hin. by apply elem_of_nil in Hin.
  - rewrite fmap_cons, elem_of_cons. cbn [fst].
    destruct (String.eqb_spec k c) as [->|Hne]; [done|].
    intros [->|Hin]; [done|]. by apply IH.
Qed.


Lemma take_columns_missing (found rest : list string) (h : string) (data : pd.DataFrame) :
  (forall c, c ∈ found -> c ∈ pd.columns data) -> h ∉ pd.columns data ->
  pd.take_columns (found ++ h :: rest) data = inl (pd.KeyError h).
Proof.
  intros Hfound Hh. induction found as [|c found IH]; cbn [app pd.take_columns].
  - by rewrite getitem_None.
  - destruct (getitem_is_Some data c) as [s ->]; [apply Hfound, list_elem_of_here|].
    rewrite IH; [done|]. intros c' Hc'. by apply Hfound, list_elem_of_further.
Qed.

Lemma pairplot_columns (columns : list string) :
  (if (5 <? length columns)%nat then take 5 columns else columns) = take 5 columns.
Proof.
  destruct (5 <? length columns)%nat eqn:E; [done|].
  apply Nat.ltb_ge in E. by rewrite take_ge.
Qed.

Lemma truthy_Some (h : string) : h <> EmptyString -> Visualizer.truthy (Some h) = true.
Proof.
  intros Hh. cbn [Visualizer.truthy]. by destruct (String.eqb_spec h EmptyString).
Qed.

(** X16: called without a column list and with a non-empty hue label that
    is not a column, [plot_pairplot] returns no plot when the table has
    fewer than two numeric columns, and raises KeyError for the hue label
    otherwise. *)
Theorem pairplot_unknown_hue (self : Visualizer.t) (h : string) :
  h <> EmptyString ->
  h ∉ pd.columns (Visualizer.df self) ->
  Visualizer.plot_pairplot self None (Some h)
  = if (length (pd.select_number (Visualizer.df self)) <? 2)%nat
    then inr None
    else inl (pd.KeyError h).
Proof.
  intros Hne Hh. unfold Visualizer.plot_pairplot.
  rewrite (truthy_Some h Hne), (bool_decide_eq_false_2 _ Hh). cbn [andb].
  unfold pd.columns at 1. rewrite length_fmap.
  destruct (length (pd.select_number (Visualizer.df self)) <? 2)%nat; [done|].
  rewrite pairplot_columns, take_columns_missing; [done| |done].
  intros c Hc. by apply columns_select_number, (subseteq_take 5).
Qed.

Lemma pairplot_unknown_hue_witness :
  Visualizer.plot_pairplot {| Visualizer.df := sample_data |} None (Some "group"%string)
  = if (length (pd.select_number sample_data) <? 2)%nat
    then inr None
    else inl (pd.KeyError "group").
Proof.
  apply (pairplot_unknown_hue {| Visualizer.df := sample_data |} "group").
  - discriminate.
  - apply (bool_decide_unpack _). vm_compute. reflexivity.
Defined.







(** ** Column lists given by the caller *)

Lemma histplots_missing (self : Visualizer.t) (found rest : list string) (c : string) :
  (forall k, k ∈ found -> k ∈ pd.columns (Visualizer.df self)) ->
  c ∉ pd.columns (Visualizer.df self) ->
  Visualizer.histplots self (found ++ c :: rest) = inl (pd.KeyError c).
Proof.
  intros Hfound Hc. induction found as [|k found IH]; cbn [app Visualizer.histplots].
  - by rewrite getitem_None.
  - destruct (getitem_is_Some (Visualizer.df self) k) as [s ->];
      [apply Hfound, list_elem_of_here|].
    rewrite IH; [done|]. intros k' Hk'. by apply Hfound, list_elem_of_further.
Qed.

Lemma countplots_missing (self : Visualizer.t) (found rest : list string) (c : string) :
  (forall k, k ∈ found -> k ∈ pd.columns (Visualizer.df self)) ->
  c ∉ pd.columns (Visualizer.df self) ->
  Visualizer.countplots self (found ++ c :: rest) = inl (pd.KeyError c).
Proof.
  intros Hfound Hc. induction found as [|k found IH]; cbn [app Visualizer.countplots].
  - by rewrite getitem_None.
  - destruct (getitem_is_Some (Visualizer.df self) k) as [s ->];
      [apply Hfound, list_elem_of_here|].
    rewrite IH; [done|]. intros k' Hk'. by apply Hfound, list_elem_of_further.
Qed.

(** X18: given a column list in which some label is not a column of the
    table, [plot_histograms] and [plot_categorical_counts] raise KeyError
    for the first such label, whatever follows it in the list; no figure is
    returned. *)
Theorem plots_reject_unknown_column (self : Visualizer.t)
    (found rest : list string) (c : string) :
  (forall k, k ∈ found -> k ∈ pd.columns (Visualizer.df self)) ->
  c ∉ pd.columns (Visualizer.df self) ->
  Visualizer.plot_histograms self (Some (found ++ c :: rest)) = inl (pd.KeyError c) /\
  Visualizer.plot_categorical_counts self (Some (found ++ c :: rest))
  = inl (pd.KeyError c).
Proof.
  intros Hfound Hc.
  unfold Visualizer.plot_histograms, Visualizer.plot_categorical_counts.
  rewrite histplots_missing, countplots_missing by done.
  rewrite length_app. cbn [length].
  by replace (length found + S (length rest) =? 0)%nat with false
    by (symmetry; apply Nat.eqb_neq; lia).
Qed.

Lemma plots_reject_unknown_column_witness :
  Visualizer.plot_histograms {| Visualizer.df := sample_data |}
    (Some (["A"%string; "B"%string] ++ "E"%string :: ["C"%string])) = inl (pd.KeyError "E") /\
  Visualizer.plot_categorical_counts {| Visualizer.df := sample_data |}
    (Some (["A"%string; "B"%string] ++ "E"%string :: ["C"%string])) = inl (pd.KeyError "E").
Proof.
  apply (plots_reject_unknown_column {| Visualizer.df := sample_data |}
           ["A"; "B"]%string ["C"]%string "E").
  - apply Forall_forall. apply (bool_decide_unpack _). vm_compute. reflexivity.
  - apply (bool_decide_unpack _). vm_compute. reflexivity.
Defined.
